(** * StressAnalysis: the per-minute stress classifier of backend/main.py

    A shallow embedding of the analysis endpoint of [backend/main.py]:
    data loading with its synthetic fallback, the cached decomposition,
    band-power estimation, baseline calibration, the per-minute classifier
    and the aggregation of its results.

    Numbers.  Python [int]s are [Z].  A float64 is an exact rational or the
    not-a-number value: [Fin q] or [NaN].  Rounding error, overflow,
    infinities and signed zeros are outside this model; every float
    division of the embedded code is guarded by a test against zero or
    divides by the literal [2.0], so none of them yields an infinity.
    Where rounding decides a property, the band power is also given in
    IEEE double precision with numpy's order of summation (module
    [Double]).

    Libraries.  numpy, scipy, PyEMD, pandas, requests and Python's [random]
    are not part of the repository; what the program needs of them is
    collected in the class [Collaborators]. *)

From Stdlib Require Import ZArith QArith Qround Lqa Lia List String Ascii Bool.
From Stdlib Require Import DecimalString.
From Stdlib Require DecimalPos DecimalZ SpecFloat.
Import ListNotations.

Open Scope string_scope.
Open Scope Z_scope.

(* ================================================================= *)
(** ** Floats *)

Module Float.

Inductive float : Type :=
| Fin (q : Q)
| NaN.

Definition of_Z (z : Z) : float := Fin (inject_Z z).

Definition isnan (x : float) : bool :=
  match x with NaN => true | Fin _ => false end.

(** Arithmetic propagates not-a-number. *)
Definition lift2 (op : Q -> Q -> Q) (x y : float) : float :=
  match x, y with
  | Fin a, Fin b => Fin (op a b)
  | _, _ => NaN
  end.

Definition add := lift2 Qplus.
Definition sub := lift2 Qminus.
Definition mul := lift2 Qmult.
(** [x / y] on numpy floats never raises.  For a zero divisor numpy gives
    an infinity or not-a-number; [NaN] stands for both, and no division of
    the program reaches that case: each is guarded by [y != 0] or divides
    by the literal [2.0]. *)
Definition div (x y : float) : float :=
  match x, y with
  | Fin a, Fin b => if Qeq_bool b 0 then NaN else Fin (a / b)
  | _, _ => NaN
  end.

(** Comparisons: any comparison with not-a-number is false, except [!=]
    which is true. *)
Definition cmp (x y : float) : option comparison :=
  match x, y with
  | Fin a, Fin b => Some (a ?= b)%Q
  | _, _ => None
  end.

Definition gt (x y : float) : bool :=
  match cmp x y with Some Gt => true | _ => false end.
Definition ge (x y : float) : bool :=
  match cmp x y with Some Gt | Some Eq => true | _ => false end.
Definition le (x y : float) : bool :=
  match cmp x y with Some Lt | Some Eq => true | _ => false end.
Definition lt (x y : float) : bool :=
  match cmp x y with Some Lt => true | _ => false end.
Definition eqb (x y : float) : bool :=
  match cmp x y with Some Eq => true | _ => false end.
Definition ne (x y : float) : bool := negb (eqb x y).

(** Rounding to the nearest integer, ties to even. *)
Definition round_half_even (q : Q) : Z :=
  let f := Qfloor q in
  match (q - inject_Z f ?= 1 # 2)%Q with
  | Lt => f
  | Gt => f + 1
  | Eq => if Z.even f then f else f + 1
  end.

Definition pow10 (d : nat) : Q := inject_Z (10 ^ Z.of_nat d).

(** [round(x, d)] and [np.round(x, decimals=d)]. *)
Definition round (x : float) (d : nat) : float :=
  match x with
  | Fin q => Fin (inject_Z (round_half_even (q * pow10 d)) / pow10 d)
  | NaN => NaN
  end.

(** A finite value within the closed interval [[lo, hi]]. *)
Definition within (lo hi : Q) (x : float) : Prop :=
  match x with
  | Fin q => (lo <= q /\ q <= hi)%Q
  | NaN => False
  end.

(** A finite value with at most [d] decimals. *)
Definition has_decimals (d : nat) (x : float) : Prop :=
  match x with
  | Fin q => exists k : Z, (q == inject_Z k / pow10 d)%Q
  | NaN => False
  end.

End Float.

Import Float.

Declare Scope float_scope.
Delimit Scope float_scope with float.
Bind Scope float_scope with Float.float.
Infix "+" := Float.add : float_scope.
Infix "-" := Float.sub : float_scope.
Infix "*" := Float.mul : float_scope.
Infix "/" := Float.div : float_scope.

(* ================================================================= *)
(** ** Python values used by the program *)

(** [range(n)]: empty when [n <= 0]. *)
Definition range (n : Z) : list Z := map Z.of_nat (seq 0 (Z.to_nat n)).

(** [len(l)]. *)
Definition len {A} (l : list A) : Z := Z.of_nat (List.length l).

(** [a[start:stop]] for non-negative bounds. *)
Definition slice {A} (start stop : Z) (a : list A) : list A :=
  firstn (Z.to_nat (stop - start)) (skipn (Z.to_nat start) a).

(** [str(n)] of an [int], as an f-string renders it. *)
Definition str_of_int (n : Z) : string := NilZero.string_of_int (Z.to_int n).

(** [sub in s] on strings. *)
Fixpoint contains (sub s : string) : bool :=
  String.prefix sub s
  || match s with
     | EmptyString => false
     | String _ s' => contains sub s'
     end.

(** Exceptions the program can meet; every one is an [Exception]. *)
Inductive exn : Type :=
| KeyError (key : string)
| ValueError (msg : string)
| TypeError
| AttributeError
| RequestException
| HTTPError
| JSONDecodeError.

Inductive result (A : Type) : Type :=
| Ok (a : A)
| Raise (e : exn).
Arguments Ok {A} a.
Arguments Raise {A} e.

Definition bind {A B} (m : result A) (k : A -> result B) : result B :=
  match m with
  | Ok a => k a
  | Raise e => Raise e
  end.

Notation "x <- m ;; k" := (bind m (fun x => k))
  (at level 61, m at next level, right associativity).

(** elementwise [a + b] of two arrays of one length. *)
Fixpoint arr_add (a b : list float) : list float :=
  match a, b with
  | x :: a', y :: b' => (x + y)%float :: arr_add a' b'
  | _, _ => []
  end.

(** [a[mask]]: boolean indexing. *)
Fixpoint select {A} (mask : list bool) (a : list A) : list A :=
  match mask, a with
  | true :: mask', x :: a' => x :: select mask' a'
  | false :: mask', _ :: a' => select mask' a'
  | _, _ => []
  end.

(** [np.trapz(y, x)]: the sum of [(x[i+1] - x[i]) * (y[i+1] + y[i]) / 2.0];
    the empty sum is [0.0]. *)
Fixpoint trapz_terms (y x : list float) : list float :=
  match y, x with
  | y0 :: (y1 :: _) as y', x0 :: (x1 :: _) as x' =>
      ((x1 - x0) * (y1 + y0) / of_Z 2)%float :: trapz_terms y' x'
  | _, _ => []
  end.

Definition np_sum (a : list float) : float :=
  fold_left Float.add a (of_Z 0).

Definition trapz (y x : list float) : float := np_sum (trapz_terms y x).

(** A [dict] with string keys: one binding per key. *)
Definition dict (V : Type) : Type := list (string * V).

Fixpoint dict_get {V} (k : string) (d : dict V) : option V :=
  match d with
  | [] => None
  | (k', v) :: d' => if String.eqb k k' then Some v else dict_get k d'
  end.

Fixpoint dict_set {V} (k : string) (v : V) (d : dict V) : dict V :=
  match d with
  | [] => [(k, v)]
  | (k', v') :: d' =>
      if String.eqb k k' then (k, v) :: d' else (k', v') :: dict_set k v d'
  end.

(** [d[k]]. *)
Definition dict_item {V} (k : string) (d : dict V) : result V :=
  match dict_get k d with
  | Some v => Ok v
  | None => Raise (KeyError k)
  end.

(** [sum(...)] over [int]s. *)
Definition py_sum (l : list Z) : Z := fold_left Z.add l 0.

(** A decoded JSON payload. *)
#[local] Unset Elimination Schemes.
Inductive json : Type :=
| JNull
| JBool (b : bool)
| JNum (x : float)
| JStr (s : string)
| JArr (items : list json)
| JObj (members : dict json).
#[local] Set Elimination Schemes.

(** Truth value of a decoded JSON value. *)
Definition truthy (v : json) : bool :=
  match v with
  | JNull => false
  | JBool b => b
  | JNum x => Float.ne x (of_Z 0)
  | JStr s => negb (String.eqb s "")
  | JArr items => negb (Nat.eqb (List.length items) 0)
  | JObj members => negb (Nat.eqb (List.length members) 0)
  end.

(** [for x in v]: a list yields its items, a dict its keys, a string its
    characters; anything else is not iterable. *)
Fixpoint chars (s : string) : list json :=
  match s with
  | EmptyString => []
  | String c s' => JStr (String c EmptyString) :: chars s'
  end.

Definition py_iter (v : json) : result (list json) :=
  match v with
  | JArr items => Ok items
  | JObj members => Ok (map (fun kv => JStr (fst kv)) members)
  | JStr s => Ok (chars s)
  | _ => Raise TypeError
  end.

(* ================================================================= *)
(** ** The libraries the program calls *)

Class Collaborators : Type := {
  (** [requests.get(url, timeout=10)], [raise_for_status()] and
      [response.json()]: the decoded payload, or the exception one of the
      three raised (timeout, connection error, HTTP status, invalid JSON). *)
  http_get : string -> result json;
  (** [float(s)] of a string; [None] when it raises [ValueError]. *)
  parse_float : string -> option float;
  (** Sample [t] of the synthetic HR and EDA series of
      [generate_dummy_data(minutes)] (numpy's seeded generator, [sin] and
      [clip]). *)
  dummy_hr : Z -> Z -> float;
  dummy_eda : Z -> Z -> float;
  (** [np.round(60000 / hr, 6)] for one sample, pandas' division included
      (a zero heart rate gives an infinity, which is not represented
      here). *)
  ibi_of_hr : float -> float;
  (** [hash(signal.tobytes())]. *)
  hash_bytes : list float -> Z;
  (** PyEMD's [CEEMDAN] with [noise_width = 0.0], [ensemble_size = 1],
      [trials = 1], run after [set_deterministic(seed)]: a 2-D array, one
      row per component.  It is taken as returning: an exception of PyEMD
      on a signal it cannot decompose leaves line 52 before the cache is
      written, and is outside this model. *)
  ceemdan : Z -> list float -> list (list float);
  (** [np.gradient(np.unwrap(np.angle(hilbert(imf)))) / (2 * np.pi)]. *)
  instantaneous_frequency : list float -> list float;
  (** [welch(segment, fs=fs, nperseg=len(segment))]: the frequency bins and
      the power spectral density. *)
  welch : list float -> float -> list float * list float;
  (** Python's [random] module: its state, [random.seed] and
      [random.random]. *)
  rng : Type;
  seed : Z -> rng;
  random : rng -> float * rng
}.

(** What the libraries document of these functions. *)
Definition unit_interval (x : float) : Prop :=
  match x with
  | Fin q => (0 <= q /\ q < 1)%Q
  | NaN => False
  end.

(** [random.random()] returns a float in [[0.0, 1.0)]. *)
Definition random_in_unit_interval `{C : Collaborators} : Prop :=
  forall g : rng, unit_interval (fst (random g)).

(** Frequency bins are finite and increase strictly. *)
Fixpoint increasing (f : list float) : Prop :=
  match f with
  | [] => True
  | x :: f' =>
      isnan x = false
      /\ match f' with
         | y :: _ => Float.lt x y = true
         | [] => True
         end
      /\ increasing f'
  end.

(** A finite, non-negative power spectral density. *)
Definition nonneg (x : float) : Prop :=
  match x with
  | Fin q => (0 <= q)%Q
  | NaN => False
  end.

(** Python's [hash] is a 64-bit signed integer. *)
Definition hash_is_64_bit `{C : Collaborators} : Prop :=
  forall signal : list float, - 2 ^ 63 <= hash_bytes signal < 2 ^ 63.

(* ================================================================= *)
(** ** The program *)

Section Program.

Context `{C : Collaborators}.

(** *** perform_ceemdan_cached *)

(** A cache file holds the pickled dict [{'hash': ..., 'imfs': ...}] this
    function wrote, or bytes that [pickle.load] rejects. *)
Inductive file : Type :=
| Pickled (hash : Z) (imfs : list (list float))
| Corrupt.

Definition filesystem : Type := dict file.

(** Lines 37-44: the cached components, when the file exists, unpickles
    and stores the hash of this signal. *)
Definition cache_lookup (signal_hash : Z) (cache_file : string)
    (fs : filesystem) : option (list (list float)) :=
  match dict_get cache_file fs with
  | Some (Pickled h imfs) => if h =? signal_hash then Some imfs else None
  | Some Corrupt => None
  | None => None
  end.

Definition decompose (signal : list float) (random_seed : Z)
    : list (list float) :=
  map (map (fun x => Float.round x 6)) (ceemdan random_seed signal).

Definition perform_ceemdan_cached (signal : list float)
    (cache_file : string) (random_seed : Z) (fs : filesystem)
    : list (list float) * filesystem :=
  let signal_hash := hash_bytes signal in
  match cache_lookup signal_hash cache_file fs with
  | Some imfs => (imfs, fs)
  | None =>
      let imfs := decompose signal random_seed in
      (imfs, dict_set cache_file (Pickled signal_hash imfs) fs)
  end.

(** *** calculate_power *)

(** [(f >= low_freq) & (f <= high_freq)] on one bin, then on the array. *)
Definition in_band (low_freq high_freq x : float) : bool :=
  Float.ge x low_freq && Float.le x high_freq.

Definition band_mask (f : list float) (low_freq high_freq : float)
    : list bool :=
  map (in_band low_freq high_freq) f.

Definition calculate_power (segment : list float)
    (fs low_freq high_freq : float) : float :=
  let '(f, Pxx) := welch segment fs in
  let mask := band_mask f low_freq high_freq in
  trapz (select mask Pxx) (select mask f).

(** *** compute_instant_freq *)

Definition compute_instant_freq (imfs : list (list float))
    : dict (list float) :=
  fold_left
    (fun inst_freq '(i, imf) =>
       dict_set ("IMF_" ++ str_of_int (i + 1))
                (instantaneous_frequency imf) inst_freq)
    (combine (range (len imfs)) imfs) [].

(** *** generate_dummy_data *)

Record DataFrame : Type := {
  HR : list float;
  EDA : list float
}.

(** [len(df)]; the two columns have one length. *)
Definition df_len (df : DataFrame) : Z := len (HR df).

(** numpy raises [ValueError] for three inputs: [np.zeros] of line 87
    refuses a negative [total_samples]; [randint] of line 90 refuses the
    empty range [[0, 0)] of [total_samples = 0], and otherwise the negative
    [size=minutes * 2] of a negative count. *)
Definition generate_dummy_data (minutes : Z) : result DataFrame :=
  let total_samples := (180 + minutes) * 60 in
  let time_points := range total_samples in
  if total_samples <? 0 then
    Raise (ValueError "negative dimensions are not allowed")
  else if total_samples =? 0 then Raise (ValueError "high <= 0")
  else if minutes <? 0 then
    Raise (ValueError "negative dimensions are not allowed")
  else Ok {| HR := map (dummy_hr minutes) time_points;
             EDA := map (dummy_eda minutes) time_points |}.

(** *** fetch_thingspeak_data *)

(** [float(v)]. *)
Definition py_float (v : json) : result float :=
  match v with
  | JNum x => Ok x
  | JBool b => Ok (of_Z (if b then 1 else 0))
  | JStr s =>
      match parse_float s with
      | Some x => Ok x
      | None => Raise (ValueError "could not convert string to float")
      end
  | _ => Raise TypeError
  end.

(** [feed.get(key)] in a condition, and [feed.get(key, dflt)]. *)
Definition get_truthy (key : string) (members : dict json) : bool :=
  match dict_get key members with
  | Some v => truthy v
  | None => false
  end.

Definition get_default (key : string) (dflt : json) (members : dict json)
    : json :=
  match dict_get key members with
  | Some v => v
  | None => dflt
  end.

(** [[float(feed.get(key, dflt)) for feed in feeds if feed.get(key)]];
    [.get] on a feed that is not a dict raises. *)
Fixpoint field_values (key : string) (dflt : json) (feeds : list json)
    : result (list float) :=
  match feeds with
  | [] => Ok []
  | JObj members :: rest =>
      if get_truthy key members then
        x <- py_float (get_default key dflt members) ;;
        xs <- field_values key dflt rest ;;
        Ok (x :: xs)
      else field_values key dflt rest
  | _ :: _ => Raise AttributeError
  end.

(** Lines 127-143: from the decoded payload to the frame.  A payload that
    is not a dict raises in every case, at ['feeds' in data], at
    [data['feeds']] or in the [else] branch; the [except] below does not
    tell the exceptions apart. *)
Definition parse_payload (data : json) : result (option DataFrame) :=
  match data with
  | JObj members =>
      match dict_get "feeds" members with
      | Some feeds_v =>
          feeds <- py_iter feeds_v ;;
          hr_data <- field_values "field1" (JNum (of_Z 70)) feeds ;;
          eda_data <- field_values "field2" (JNum (of_Z 5)) feeds ;;
          let min_len := Nat.min (List.length hr_data) (List.length eda_data) in
          Ok (Some {| HR := firstn min_len hr_data;
                      EDA := firstn min_len eda_data |})
      | None => Raise (ValueError "Invalid ThingSpeak response format")
      end
  | _ => Raise TypeError
  end.

(** The body of the [try]. *)
Definition fetch_try (thingspeak_url : string)
    : result (option DataFrame) :=
  if contains "dummy-thingspeak" thingspeak_url
     || contains "localhost:8000" thingspeak_url
  then Ok None
  else
    data <- http_get thingspeak_url ;;
    parse_payload data.

(** [except Exception]: any failure becomes [None]. *)
Definition fetch_thingspeak_data (thingspeak_url : string)
    : option DataFrame :=
  match fetch_try thingspeak_url with
  | Ok df => df
  | Raise _ => None
  end.

(** *** analyze_stress: calibration and the segment loop *)

Record MinuteResult : Type := {
  minute : Z;
  stress_level : string;
  numeric_label : Z;
  oxygen_level : float;
  ibi_lf_hf_ratio : float;
  scl_lf_power : float
}.

Record AnalysisResponse : Type := {
  results : list MinuteResult;
  stress_score : string;
  total_minutes : Z;
  stressed_minutes : Z;
  oxygen_levels : list float
}.

(** The parameters of the handler. *)
Definition fs : float := of_Z 1.
Definition segment_length : Z := 60.
Definition baseline_duration : Z := 180.
Definition random_seed : Z := 42.

(** The five instantaneous-frequency series the analysis reads. *)
Record Frequencies : Type := {
  ibi_imf1 : list float;
  ibi_imf2 : list float;
  ibi_imf3 : list float;
  scl_imf2 : list float;
  scl_imf3 : list float
}.

(** [lf / hf if hf != 0 else np.nan]: the expression of lines 214 and 236. *)
Definition lf_hf_ratio (lf hf : float) : float :=
  if Float.ne hf (of_Z 0) then (lf / hf)%float else NaN.

(** The band powers of the window [[start, stop)]. *)
Definition ibi_lf (F : Frequencies) (start stop : Z) : float :=
  calculate_power
    (arr_add (slice start stop (ibi_imf2 F)) (slice start stop (ibi_imf3 F)))
    fs (Fin (4 # 100)) (Fin (1 # 10)).

Definition ibi_hf (F : Frequencies) (start stop : Z) : float :=
  calculate_power (slice start stop (ibi_imf1 F))
    fs (Fin (1 # 10)) (Fin (4 # 10)).

Definition scl_lf (F : Frequencies) (start stop : Z) : float :=
  calculate_power
    (arr_add (slice start stop (scl_imf2 F)) (slice start stop (scl_imf3 F)))
    fs (Fin (4 # 100)) (Fin (25 # 100)).

(** Baseline thresholds (lines 211-215). *)
Definition ibi_baseline (F : Frequencies) : float :=
  lf_hf_ratio (ibi_lf F 0 baseline_duration) (ibi_hf F 0 baseline_duration).

Definition scl_baseline (F : Frequencies) : float :=
  scl_lf F 0 baseline_duration.

(** The segment's ratio and its two flags (lines 234-241). *)
Definition ibi_ratio (F : Frequencies) (start stop : Z) : float :=
  lf_hf_ratio (ibi_lf F start stop) (ibi_hf F start stop).

Definition ibi_flag (F : Frequencies) (start stop : Z) : bool :=
  Float.gt (ibi_ratio F start stop) (ibi_baseline F).

Definition scl_flag (F : Frequencies) (start stop : Z) : bool :=
  Float.gt (scl_lf F start stop) (scl_baseline F).

(** [set_deterministic(seed)], as far as Python's [random] goes: the state
    the later draws start from. *)
Definition set_deterministic (s : Z) : rng := seed s.

(** [random.uniform(a, b)] is [a + (b - a) * self.random()]. *)
Definition uniform (a b : float) (g : rng) : float * rng :=
  let '(r, g') := random g in
  ((a + (b - a) * r)%float, g').

(** The decision rule (lines 243-251): label, numeric label and oxygen. *)
Definition classify (ibi_flag scl_flag : bool) (g : rng)
    : string * Z * float * rng :=
  if ibi_flag && scl_flag then
    let '(u, g') := uniform (of_Z 94) (of_Z 96) g in
    ("High Stress", 2, Float.round u 2, g')
  else if ibi_flag || scl_flag then
    let '(u, g') := uniform (of_Z 96) (of_Z 98) g in
    ("Mild Stress", 1, Float.round u 2, g')
  else
    let '(u, g') := uniform (of_Z 98) (of_Z 100) g in
    ("No Stress", 0, Float.round u 2, g').

(** One iteration of the loop past the [break] test (lines 230-260). *)
Definition analyze_segment (F : Frequencies) (m start stop : Z) (g : rng)
    : MinuteResult * rng :=
  let ibi_ratio := ibi_ratio F start stop in
  let scl_lf := scl_lf F start stop in
  let '(stress, num_label, oxygen, g') :=
    classify (ibi_flag F start stop) (scl_flag F start stop) g in
  ({| minute := m + 1;
      stress_level := stress;
      numeric_label := num_label;
      oxygen_level := oxygen;
      ibi_lf_hf_ratio := if negb (isnan ibi_ratio) then ibi_ratio else of_Z 0;
      scl_lf_power := scl_lf |}, g').

(** [for m in range(analysis_minutes)] with its [break] (lines 223-260). *)
Fixpoint segment_loop (F : Frequencies) (signal_len : Z) (ms : list Z)
    (g : rng) (results : list MinuteResult) : list MinuteResult :=
  match ms with
  | [] => results
  | m :: ms' =>
      let start := baseline_duration + m * segment_length in
      let stop := start + segment_length in
      if stop >? signal_len then results
      else
        let '(r, g') := analyze_segment F m start stop g in
        segment_loop F signal_len ms' g' (results ++ [r])%list
  end.

Definition analysis_minutes (minutes signal_len : Z) : Z :=
  Z.min minutes
        (signal_len / segment_length - baseline_duration / segment_length).

(** Lines 263-273. *)
Definition aggregate (results : list MinuteResult) : AnalysisResponse :=
  let stressed_minutes :=
    py_sum (map (fun _ => 1)
                (filter (fun r => numeric_label r >? 0) results)) in
  let stress_score :=
    str_of_int stressed_minutes ++ "/" ++ str_of_int (len results) in
  let oxygen_levels := map oxygen_level results in
  {| results := results;
     stress_score := stress_score;
     total_minutes := len results;
     stressed_minutes := stressed_minutes;
     oxygen_levels := oxygen_levels |}.

(** Lines 210-273: from the frequency series to the response. *)
Definition run_analysis (minutes : Z) (ibi_signal : list float)
    (F : Frequencies) : AnalysisResponse :=
  let g := set_deterministic 42 in
  let analysis_minutes := analysis_minutes minutes (len ibi_signal) in
  aggregate (segment_loop F (len ibi_signal) (range analysis_minutes) g []).

(** *** analyze_stress: the request handler *)

Record AnalysisRequest : Type := {
  minutes : Z;
  thingspeak_url : option string;
  use_dummy_data : bool
}.

(** [HTTPException(status_code=500, detail=...)] carrying the exception
    that the handler's [except Exception] caught. *)
Inductive HTTPException : Type :=
| Http500 (e : exn).

(** [if request.thingspeak_url:] holds for a non-empty string. *)
Definition has_locator (request : AnalysisRequest) : option string :=
  match thingspeak_url request with
  | Some url => if String.eqb url "" then None else Some url
  | None => None
  end.

(** Lines 174-180: the frame the pipeline runs on. *)
Definition load_data (request : AnalysisRequest) : result DataFrame :=
  let df :=
    match has_locator request with
    | Some url => fetch_thingspeak_data url
    | None => None
    end in
  match df with
  | Some d =>
      if df_len d =? 0 then generate_dummy_data (minutes request) else Ok d
  | None => generate_dummy_data (minutes request)
  end.

(** Lines 183-273: the pipeline on a loaded frame. *)
Definition analyze_frame (requested : Z) (df : DataFrame)
    (files : filesystem) : result AnalysisResponse * filesystem :=
  let ibi_signal := map ibi_of_hr (HR df) in
  let scl_signal := EDA df in
  let '(ibi_imfs, files) :=
    perform_ceemdan_cached ibi_signal "ibi_imfs_cache.pkl" random_seed files in
  let '(scl_imfs, files) :=
    perform_ceemdan_cached scl_signal "scl_imfs_cache.pkl" random_seed files in
  let ibi_freq := compute_instant_freq ibi_imfs in
  let scl_freq := compute_instant_freq scl_imfs in
  (i1 <- dict_item "IMF_1" ibi_freq ;;
   i2 <- dict_item "IMF_2" ibi_freq ;;
   i3 <- dict_item "IMF_3" ibi_freq ;;
   s2 <- dict_item "IMF_2" scl_freq ;;
   s3 <- dict_item "IMF_3" scl_freq ;;
   Ok (run_analysis requested ibi_signal
         {| ibi_imf1 := i1; ibi_imf2 := i2; ibi_imf3 := i3;
            scl_imf2 := s2; scl_imf3 := s3 |}),
   files).

(** The handler: a response, or status 500 for any exception. *)
Definition analyze_stress (request : AnalysisRequest) (files : filesystem)
    : (HTTPException + AnalysisResponse) * filesystem :=
  match load_data request with
  | Raise e => (inl (Http500 e), files)
  | Ok df =>
      let '(r, files') := analyze_frame (minutes request) df files in
      (match r with
       | Ok response => inr response
       | Raise e => inl (Http500 e)
       end, files')
  end.

End Program.

(* ================================================================= *)
(** ** A concrete family of collaborators

    Small stand-ins for the libraries, on which the definitions above
    evaluate. *)

Module Demo.

Definition bins (n : nat) (fs : float) : list float :=
  map (fun k => (of_Z (Z.of_nat k) * fs / of_Z (Z.of_nat n))%float)
      (seq 0 (S (Nat.div n 2))).

Definition demo_welch (segment : list float) (fs : float)
    : list float * list float :=
  let n := List.length segment in
  (bins n fs, map (fun x => (x * x)%float) (firstn (S (Nat.div n 2)) segment)).

Definition reading (hr eda : Z) : json :=
  JObj [("field1", JNum (of_Z hr)); ("field2", JNum (of_Z eda))].

Definition demo_http_get (url : string) : result json :=
  if String.eqb url "http://sensor/feeds" then
    Ok (JObj [("feeds", JArr [reading 60 4; reading 75 5; reading 80 6])])
  else if String.eqb url "http://sensor/renamed" then
    Ok (JObj [("feeds", JArr [JObj [("pulse", JNum (of_Z 60))]])])
  else if String.eqb url "http://sensor/html" then Raise JSONDecodeError
  else Raise RequestException.

#[export] Instance collaborators : Collaborators := {|
  http_get := demo_http_get;
  parse_float := fun _ => None;
  dummy_hr := fun _ t => of_Z (70 + t mod 7);
  dummy_eda := fun _ t => of_Z (4 + t mod 3);
  ibi_of_hr := fun hr => Float.round (of_Z 60000 / hr) 6;
  hash_bytes := fun signal => len signal mod 2 ^ 63;
  ceemdan := fun _ signal =>
    [signal; map (fun x => (x / of_Z 2)%float) signal;
     map (fun x => (x / of_Z 4)%float) signal];
  instantaneous_frequency := fun imf => imf;
  welch := demo_welch;
  rng := nat;
  seed := Z.to_nat;
  random := fun g => (Fin (Z.of_nat (Nat.modulo g 8) # 8), S g)
|}.

(** A signal of [n] samples cycling through 0, 1, 2. *)
Definition ramp (n : nat) : list float :=
  map (fun k => of_Z (Z.of_nat (Nat.modulo k 3))) (seq 0 n).

Definition frequencies (n : nat) : Frequencies :=
  {| ibi_imf1 := ramp n;
     ibi_imf2 := ramp n;
     ibi_imf3 := map (fun x => (x * x)%float) (ramp n);
     scl_imf2 := ramp n;
     scl_imf3 := ramp n |}.

(** The same with a flat first component: its band power is zero. *)
Definition flat_frequencies (n : nat) : Frequencies :=
  {| ibi_imf1 := map (fun _ => of_Z 0) (seq 0 n);
     ibi_imf2 := ramp n;
     ibi_imf3 := ramp n;
     scl_imf2 := ramp n;
     scl_imf3 := ramp n |}.

(** Six minutes of frequency series, constant over each minute: three
    minutes of baseline, then one minute with both low-frequency series
    raised, one with the IBI series raised, one with neither. *)
Definition staircase (levels : list Z) : list float :=
  flat_map (fun level => repeat (of_Z level) 60) levels.

Definition six_minutes : Frequencies :=
  {| ibi_imf1 := staircase [1; 1; 1; 1; 1; 1];
     ibi_imf2 := staircase [1; 1; 1; 3; 3; 0];
     ibi_imf3 := staircase [0; 0; 0; 0; 0; 0];
     scl_imf2 := staircase [1; 1; 1; 3; 0; 0];
     scl_imf3 := staircase [0; 0; 0; 0; 0; 0] |}.

End Demo.

(* ================================================================= *)
(** ** The labels of the specification *)

(** The label and numeric label the two flags call for. *)
Definition stress_label (ibi_flag eda_flag : bool) : string * Z :=
  match ibi_flag, eda_flag with
  | true, true => ("High Stress", 2)
  | true, false | false, true => ("Mild Stress", 1)
  | false, false => ("No Stress", 0)
  end.

(** The number of records with a numeric label above zero. *)
Fixpoint stressed_count (rs : list MinuteResult) : Z :=
  match rs with
  | [] => 0
  | r :: rs' => (if 0 <? numeric_label r then 1 else 0) + stressed_count rs'
  end.

(** The bounds declared for the oxygen proxy of a label. *)
Definition declared_bounds (label : string) : option (Q * Q) :=
  if String.eqb label "High Stress" then Some (94 # 1, 96 # 1)
  else if String.eqb label "Mild Stress" then Some (96 # 1, 98 # 1)
  else if String.eqb label "No Stress" then Some (98 # 1, 100 # 1)
  else None.

Definition within_declared_bounds (r : MinuteResult) : Prop :=
  match declared_bounds (stress_level r) with
  | Some (lo, hi) => Float.within lo hi (oxygen_level r)
  | None => False
  end.

(** The ways the external data source fails a request: no locator given;
    the transfer fails (timeout, connection error, HTTP status, a body that
    is not JSON); the payload is malformed (parsing it raises); the feeds
    do not carry the expected field name. *)
Definition lacks_field (key : string) (feed : json) : Prop :=
  exists members, feed = JObj members /\ dict_get key members = None.

Inductive data_source_failure `{C : Collaborators} (request : AnalysisRequest)
    : Prop :=
| NoLocator :
    has_locator request = None -> data_source_failure request
| TransferFailed (url : string) (e : exn) :
    has_locator request = Some url ->
    http_get url = Raise e -> data_source_failure request
| MalformedPayload (url : string) (data : json) (e : exn) :
    has_locator request = Some url ->
    http_get url = Ok data ->
    parse_payload data = Raise e -> data_source_failure request
| MismatchedFields (url : string) (members : dict json) (feeds : list json)
    (key : string) :
    has_locator request = Some url ->
    http_get url = Ok (JObj members) ->
    dict_get "feeds" members = Some (JArr feeds) ->
    key = "field1" \/ key = "field2" ->
    Forall (lacks_field key) feeds -> data_source_failure request.

(** What the handler does with a frame once it is loaded. *)
Definition continue_with `{C : Collaborators} (request : AnalysisRequest)
    (df : DataFrame) (files : filesystem)
    : (HTTPException + AnalysisResponse) * filesystem :=
  let '(r, files') := analyze_frame (minutes request) df files in
  (match r with
   | Ok response => inr response
   | Raise e => inl (Http500 e)
   end, files').

(** What scipy documents of [welch] on a segment: as many densities as
    bins, the bins increasing, the densities non-negative. *)
Definition welch_ok `{C : Collaborators} (segment : list float) (fs : float)
    : Prop :=
  List.length (fst (welch segment fs)) = List.length (snd (welch segment fs))
  /\ increasing (fst (welch segment fs))
  /\ Forall nonneg (snd (welch segment fs)).

(** The trapezoid rule on points [(x, y)] of exact coordinates. *)
Module Exact.

#[local] Open Scope Q_scope.

Definition point : Type := (Q * Q)%type.

Definition term (p q : point) : Q :=
  (fst q - fst p) * (snd q + snd p) / 2.

Fixpoint area (pts : list point) : Q :=
  match pts with
  | p :: (q :: _) as pts' => term p q + area pts'
  | _ => 0
  end.

(** Abscissas in non-decreasing order, ordinates non-negative. *)
Fixpoint ascending (pts : list point) : Prop :=
  match pts with
  | [] => True
  | p :: pts' =>
      Forall (fun q => fst p <= fst q) pts' /\ 0 <= snd p /\ ascending pts'
  end.

Definition inside (a b : Q) (p : point) : bool :=
  in_band (Fin a) (Fin b) (Fin (fst p)).

Definition below (b : Q) (p : point) : bool := Float.le (Fin (fst p)) (Fin b).

Definition value (x : float) : Q :=
  match x with
  | Fin q => q
  | NaN => 0
  end.

(** The summands of [np.trapz] on the points. *)
Definition terms (pts : list point) : list Q :=
  map value (trapz_terms (map (fun p => Fin (snd p)) pts)
                         (map (fun p => Fin (fst p)) pts)).

End Exact.

(** The concrete collaborators with a source of text readings, one of
    them not a number. *)
Module TextSource.

Definition text_http_get (url : string) : result json :=
  Ok (JObj [("feeds",
             JArr [JObj [("field1", JStr "72.5"); ("field2", JStr "4.1")];
                   JObj [("field1", JStr "n/a"); ("field2", JStr "4.3")]])]).

Definition text_parse_float (s : string) : option float :=
  if String.eqb s "72.5" then Some (Fin (725 # 10))
  else if String.eqb s "4.1" then Some (Fin (41 # 10))
  else if String.eqb s "4.3" then Some (Fin (43 # 10))
  else None.

Definition collaborators : Collaborators := {|
  http_get := text_http_get;
  parse_float := text_parse_float;
  dummy_hr := @dummy_hr Demo.collaborators;
  dummy_eda := @dummy_eda Demo.collaborators;
  ibi_of_hr := @ibi_of_hr Demo.collaborators;
  hash_bytes := @hash_bytes Demo.collaborators;
  ceemdan := @ceemdan Demo.collaborators;
  instantaneous_frequency := @instantaneous_frequency Demo.collaborators;
  welch := @welch Demo.collaborators;
  rng := @rng Demo.collaborators;
  seed := @seed Demo.collaborators;
  random := @random Demo.collaborators
|}.

End TextSource.

(** The feed is a dict whose field [key] holds a true value that [float]
    converts to [x]. *)
Definition carries `{C : Collaborators} (key : string) (feed : json)
    (x : float) : Prop :=
  exists members v,
    feed = JObj members
    /\ dict_get key members = Some v
    /\ truthy v = true
    /\ py_float v = Ok x.

(** The feed is a dict whose field [key] holds a true value that [float]
    rejects. *)
Definition unconvertible `{C : Collaborators} (key : string) (feed : json)
    : Prop :=
  exists members v e,
    feed = JObj members
    /\ dict_get key members = Some v
    /\ truthy v = true
    /\ py_float v = Raise e.

(** The locator names neither the dummy endpoint nor the local server. *)
Definition remote (url : string) : Prop :=
  contains "dummy-thingspeak" url || contains "localhost:8000" url = false.

(** Lines 204-208: the five series the analysis reads, subscripted in this
    order from the two frequency dicts of lines 201-202. *)
Definition select_series (ibi_freq scl_freq : dict (list float))
    : result Frequencies :=
  i1 <- dict_item "IMF_1" ibi_freq ;;
  i2 <- dict_item "IMF_2" ibi_freq ;;
  i3 <- dict_item "IMF_3" ibi_freq ;;
  s2 <- dict_item "IMF_2" scl_freq ;;
  s3 <- dict_item "IMF_3" scl_freq ;;
  Ok {| ibi_imf1 := i1; ibi_imf2 := i2; ibi_imf3 := i3;
        scl_imf2 := s2; scl_imf3 := s3 |}.

(** The three segments calibration takes the power of (lines 212-215). *)
Definition baseline_segments (F : Frequencies) : list (list float) :=
  [arr_add (slice 0 baseline_duration (ibi_imf2 F))
           (slice 0 baseline_duration (ibi_imf3 F));
   slice 0 baseline_duration (ibi_imf1 F);
   arr_add (slice 0 baseline_duration (scl_imf2 F))
           (slice 0 baseline_duration (scl_imf3 F))].

(** A band no bin can fall in: an edge is not-a-number, or the upper edge
    is below the lower one. *)
Definition empty_band (low_freq high_freq : float) : Prop :=
  isnan low_freq = true \/ isnan high_freq = true
  \/ Float.lt high_freq low_freq = true.

(** The band power as numpy computes it, in IEEE double precision: the
    binary64 operations of the Standard Library's specification of floats,
    and the order in which [np.add.reduce] adds the terms of [np.trapz]
    (numpy's [pairwise_sum]: a plain loop below 8 terms, 8 accumulators
    up to 128, halves above). *)
Module Double.

Definition double : Type := SpecFloat.spec_float.

Definition prec : Z := 53.
Definition emax : Z := 1024.

Definition zero : double := SpecFloat.S754_zero false.
Definition of_int (z : Z) : double :=
  SpecFloat.binary_normalize prec emax z 0 false.

Definition add : double -> double -> double := SpecFloat.SFadd prec emax.
Definition sub : double -> double -> double := SpecFloat.SFsub prec emax.
Definition mul : double -> double -> double := SpecFloat.SFmul prec emax.
Definition div : double -> double -> double := SpecFloat.SFdiv prec emax.
Definition le : double -> double -> bool := SpecFloat.SFleb.
Definition lt : double -> double -> bool := SpecFloat.SFltb.
Definition ge (x y : double) : bool := SpecFloat.SFleb y x.

(** The double a decimal literal [a / b] denotes: the nearest one. *)
Definition literal (a b : Z) : double := div (of_int a) (of_int b).

(** [res += a[i]] over the array. *)
Definition sum_loop (res : double) (a : list double) : double :=
  fold_left add a res.

Fixpoint add_each (r a : list double) : list double :=
  match r, a with
  | x :: r', y :: a' => add x y :: add_each r' a'
  | _, _ => r
  end.

(** [r[j] += a[i + j]] for [blocks] blocks of 8; what is left of [a]. *)
Fixpoint add_blocks (blocks : nat) (r a : list double)
    : list double * list double :=
  match blocks with
  | O => (r, a)
  | S blocks' => add_blocks blocks' (add_each r (firstn 8 a)) (skipn 8 a)
  end.

(** The branch for 8 to 128 terms. *)
Definition unrolled (a : list double) : double :=
  let n := List.length a in
  let '(r, rest) := add_blocks (Nat.div n 8 - 1) (firstn 8 a) (skipn 8 a) in
  match r with
  | [r0; r1; r2; r3; r4; r5; r6; r7] =>
      sum_loop (add (add (add r0 r1) (add r2 r3))
                    (add (add r4 r5) (add r6 r7))) rest
  | _ => zero
  end.

Fixpoint pairwise_sum (depth : nat) (a : list double) : double :=
  let n := List.length a in
  if Nat.ltb n 8 then sum_loop zero a
  else if Nat.leb n 128 then unrolled a
  else
    match depth with
    | O => zero
    | S depth' =>
        let n2 := (Nat.div n 2 - Nat.modulo (Nat.div n 2) 8)%nat in
        add (pairwise_sum depth' (firstn n2 a))
            (pairwise_sum depth' (skipn n2 a))
    end.

(** [a.sum()]: the reduction starts from the identity [0.0]. *)
Definition np_sum (a : list double) : double :=
  add zero (pairwise_sum (List.length a) a).

(** [d * (y[1:] + y[:-1]) / 2.0] with [d = diff(x)]. *)
Fixpoint trapz_terms (y x : list double) : list double :=
  match y, x with
  | y0 :: (y1 :: _) as y', x0 :: (x1 :: _) as x' =>
      div (mul (sub x1 x0) (add y1 y0)) (of_int 2) :: trapz_terms y' x'
  | _, _ => []
  end.

Definition trapz (y x : list double) : double := np_sum (trapz_terms y x).

Definition in_band (low_freq high_freq x : double) : bool :=
  ge x low_freq && le x high_freq.

(** Lines 60-61 on the bins [f] and the density [Pxx] that [welch]
    returned. *)
Definition calculate_power (f Pxx : list double)
    (low_freq high_freq : double) : double :=
  let mask := map (in_band low_freq high_freq) f in
  trapz (select mask Pxx) (select mask f).

Fixpoint increasing (f : list double) : bool :=
  match f with
  | x :: (y :: _) as f' => lt x y && increasing f'
  | _ => true
  end.

(** The bins of a 60-sample segment at [fs = 1], as scipy's [rfftfreq]
    computes them: [k * (1.0 / 60.0)] for k = 0, ..., 30. *)
Definition bins60 : list double :=
  map (fun k => mul (of_int (Z.of_nat k)) (div (of_int 1) (of_int 60)))
      (seq 0 31).

(** A positive density on those bins: [2 ** -60] at the bins 0.05 and
    0.0667, small integers elsewhere. *)
Definition tiny : double := SpecFloat.S754_finite false 1 (-60).

Definition density60 : list double :=
  [of_int 6; of_int 1; of_int 8; tiny; tiny; of_int 7; of_int 9; of_int 1;
   of_int 2; of_int 4; of_int 1; of_int 2; of_int 4; of_int 9; of_int 2;
   of_int 1; of_int 4; of_int 3; of_int 6; of_int 6; of_int 9; of_int 8;
   of_int 8; of_int 5; of_int 6; of_int 8; of_int 7; of_int 4; of_int 1;
   of_int 9; of_int 7].

End Double.

(** The window of the record of minute [k]: it starts after the baseline. *)
Definition start_of (r : MinuteResult) : Z :=
  baseline_duration + (minute r - 1) * segment_length.

Definition stop_of (r : MinuteResult) : Z := start_of r + segment_length.

(* ================================================================= *)
(** ** The segment loop *)

Section Loop.

Context `{C : Collaborators}.

Lemma classify_label (i e : bool) (g : rng) :
  let '(stress, num_label, _, _) := classify i e g in
  (stress, num_label) = stress_label i e.
Proof.
  unfold classify, uniform.
  destruct i, e; simpl; destruct (random g); reflexivity.
Qed.

Lemma analyze_segment_minute F m start stop g :
  minute (fst (analyze_segment F m start stop g)) = m + 1.
Proof.
  unfold analyze_segment.
  destruct (classify _ _ g) as [[[stress num] oxygen] g']. reflexivity.
Qed.

(** Whatever holds of every record the body can build holds of every
    record the loop returns. *)
Lemma segment_loop_Forall (P : MinuteResult -> Prop) F L :
  (forall m g,
      P (fst (analyze_segment F m
                (baseline_duration + m * segment_length)
                (baseline_duration + m * segment_length + segment_length) g))) ->
  forall ms g acc, Forall P acc -> Forall P (segment_loop F L ms g acc).
Proof.
  intros body. induction ms as [|m ms IH]; intros g acc Hacc;
    cbn [segment_loop].
  - exact Hacc.
  - destruct (_ >? L); [exact Hacc|].
    specialize (body m g).
    destruct (analyze_segment F m _ _ g) as [r g'].
    apply IH. apply Forall_app. split; [exact Hacc|].
    constructor; [exact body|constructor].
Qed.

(** Without a [break] the loop appends one record per index, numbered from
    the index. *)
Lemma segment_loop_minutes F L :
  forall ms g acc,
    Forall (fun m => baseline_duration + m * segment_length + segment_length <= L) ms ->
    map minute (segment_loop F L ms g acc)
    = (map minute acc ++ map (Z.add 1) ms)%list.
Proof.
  induction ms as [|m ms IH]; intros g acc Hms; cbn [segment_loop map].
  - now rewrite app_nil_r.
  - inversion Hms as [|? ? Hm Hrest]; subst.
    destruct (_ >? L) eqn:E; [apply Z.gtb_lt in E; lia|].
    pose proof (analyze_segment_minute F m
                  (baseline_duration + m * segment_length)
                  (baseline_duration + m * segment_length + segment_length) g) as Hmin.
    destruct (analyze_segment F m _ _ g) as [r g']. simpl in Hmin.
    rewrite (IH g' _ Hrest), map_app, <- app_assoc. cbn [map app].
    rewrite Hmin. do 2 f_equal. lia.
Qed.

Lemma range_bounds n : Forall (fun m => 0 <= m < n) (range n).
Proof.
  unfold range. apply Forall_forall. intros m Hin.
  apply in_map_iff in Hin as (k & <- & Hk). apply in_seq in Hk. lia.
Qed.

Lemma range_length n : len (range n) = Z.max 0 n.
Proof.
  unfold len, range. rewrite length_map, length_seq. lia.
Qed.

(** The indices of the loop all fit in the signal: the [break] is never
    taken. *)
Lemma analysis_minutes_fit requested L :
  0 <= L ->
  Forall (fun m => baseline_duration + m * segment_length + segment_length <= L)
         (range (analysis_minutes requested L)).
Proof.
  intros HL. eapply Forall_impl; [|apply range_bounds].
  intros m [Hm0 Hm]. unfold analysis_minutes, baseline_duration, segment_length in *.
  change (180 / 60) with 3 in Hm.
  pose proof (Z.mul_div_le L 60 ltac:(lia)). lia.
Qed.

Lemma run_analysis_results requested ibi_signal F :
  results (run_analysis requested ibi_signal F)
  = segment_loop F (len ibi_signal)
      (range (analysis_minutes requested (len ibi_signal)))
      (set_deterministic 42) [].
Proof. reflexivity. Qed.

Lemma run_analysis_minutes requested ibi_signal F :
  map minute (results (run_analysis requested ibi_signal F))
  = map (Z.add 1) (range (analysis_minutes requested (len ibi_signal))).
Proof.
  rewrite run_analysis_results, segment_loop_minutes; [reflexivity|].
  apply analysis_minutes_fit. unfold len. lia.
Qed.

Lemma run_analysis_length requested ibi_signal F :
  len (results (run_analysis requested ibi_signal F))
  = Z.max 0 (analysis_minutes requested (len ibi_signal)).
Proof.
  rewrite <- range_length. unfold len at 1 3. f_equal.
  rewrite <- (length_map minute), run_analysis_minutes, length_map.
  reflexivity.
Qed.

End Loop.

(* ================================================================= *)
(** ** Classification *)

Section Classification.

Context `{C : Collaborators}.

Lemma analyze_segment_label F m start stop g :
  let r := fst (analyze_segment F m start stop g) in
  (stress_level r, numeric_label r)
  = stress_label (ibi_flag F start stop) (scl_flag F start stop).
Proof.
  unfold analyze_segment.
  pose proof (classify_label (ibi_flag F start stop) (scl_flag F start stop) g) as Hc.
  destruct (classify _ _ g) as [[[stress num] oxygen] g']. exact Hc.
Qed.

Lemma start_of_segment F m start stop g :
  start_of (fst (analyze_segment F m start stop g))
  = baseline_duration + m * segment_length.
Proof.
  unfold start_of. rewrite analyze_segment_minute. f_equal. f_equal. lia.
Qed.

(** C1: the label of a segment is a function of its two flags alone,
    [ibi_flag = ibi_ratio > ibi_threshold] and
    [eda_flag = eda_lf_power > eda_threshold]: both give High Stress with
    numeric label 2, exactly one gives Mild Stress with 1, neither gives
    No Stress with 0.  This holds of the loop body on any window and of
    every record a run returns, on the window of its minute. *)
Theorem label_is_function_of_flags :
  (forall F start stop,
      ibi_flag F start stop = Float.gt (ibi_ratio F start stop) (ibi_baseline F)
      /\ scl_flag F start stop = Float.gt (scl_lf F start stop) (scl_baseline F))
  /\ stress_label true true = ("High Stress", 2)
  /\ stress_label true false = ("Mild Stress", 1)
  /\ stress_label false true = ("Mild Stress", 1)
  /\ stress_label false false = ("No Stress", 0)
  /\ (forall F m start stop g,
        (stress_level (fst (analyze_segment F m start stop g)),
         numeric_label (fst (analyze_segment F m start stop g)))
        = stress_label (ibi_flag F start stop) (scl_flag F start stop))
  /\ (forall requested ibi_signal F,
        Forall (fun r =>
                  (stress_level r, numeric_label r)
                  = stress_label (ibi_flag F (start_of r) (stop_of r))
                                 (scl_flag F (start_of r) (stop_of r)))
               (results (run_analysis requested ibi_signal F))).
Proof.
  repeat split.
  - intros. apply analyze_segment_label.
  - intros requested ibi_signal F. rewrite run_analysis_results.
    apply segment_loop_Forall; [|constructor].
    intros m g. unfold stop_of. rewrite start_of_segment.
    apply analyze_segment_label.
Qed.

(** C2, as the code has it: a run over a signal of length L returns
    max(0, min(requested_minutes, floor(L/60) - 3)) records, and their
    minute fields are 1, 2, ..., len(results). *)
Theorem record_count_and_minutes requested ibi_signal F :
  len (results (run_analysis requested ibi_signal F))
  = Z.max 0 (Z.min requested (len ibi_signal / 60 - 3))
  /\ map minute (results (run_analysis requested ibi_signal F))
     = map (Z.add 1)
           (range (len (results (run_analysis requested ibi_signal F)))).
Proof.
  split.
  - apply run_analysis_length.
  - rewrite run_analysis_length, run_analysis_minutes. f_equal.
    unfold range. f_equal. f_equal. lia.
Qed.

Lemma lf_hf_ratio_zero lf hf :
  Float.eqb hf (of_Z 0) = true -> lf_hf_ratio lf hf = NaN.
Proof.
  unfold lf_hf_ratio, Float.ne. intros ->. reflexivity.
Qed.

Lemma gt_nan_r x : Float.gt x NaN = false.
Proof. destruct x; reflexivity. Qed.

Lemma gt_nan_l x : Float.gt NaN x = false.
Proof. reflexivity. Qed.

(** C3: when the baseline high-frequency power of the IBI is exactly zero
    the IBI threshold is not-a-number, [ibi_ratio > ibi_threshold] is
    false on every window, no record is High Stress (a record is Mild
    Stress exactly when its EDA flag is set, No Stress otherwise), and
    the run returns its full count of records. *)
Theorem nan_threshold_never_high requested ibi_signal F :
  Float.eqb (ibi_hf F 0 baseline_duration) (of_Z 0) = true ->
  ibi_baseline F = NaN
  /\ (forall start stop, ibi_flag F start stop = false)
  /\ Forall (fun r =>
               numeric_label r <> 2
               /\ stress_level r <> "High Stress"
               /\ (stress_level r, numeric_label r)
                  = stress_label false (scl_flag F (start_of r) (stop_of r)))
            (results (run_analysis requested ibi_signal F))
  /\ len (results (run_analysis requested ibi_signal F))
     = Z.max 0 (analysis_minutes requested (len ibi_signal)).
Proof.
  intros Hzero.
  assert (Hbase : ibi_baseline F = NaN)
    by (unfold ibi_baseline; now apply lf_hf_ratio_zero).
  assert (Hflag : forall start stop, ibi_flag F start stop = false)
    by (intros; unfold ibi_flag; rewrite Hbase; apply gt_nan_r).
  repeat split; try assumption.
  - rewrite run_analysis_results.
    apply segment_loop_Forall; [|constructor].
    intros m g.
    pose proof (analyze_segment_label F m
                  (baseline_duration + m * segment_length)
                  (baseline_duration + m * segment_length + segment_length) g)
      as Hl.
    cbv zeta in Hl. rewrite Hflag in Hl.
    unfold stop_of. rewrite start_of_segment.
    revert Hl. generalize (fst (analyze_segment F m
                  (baseline_duration + m * segment_length)
                  (baseline_duration + m * segment_length + segment_length) g)).
    generalize (scl_flag F (baseline_duration + m * segment_length)
                  (baseline_duration + m * segment_length + segment_length)).
    intros b r Hl. split; [|split]; [| |exact Hl];
      intros Habs; rewrite Habs in Hl; destruct b; discriminate Hl.
  - apply run_analysis_length.
Qed.

(** C4, as the code has it: on a segment whose IBI high-frequency power is
    exactly zero the ratio is the not-a-number value, as in calibration;
    the ibi_flag is false and the record reports [0.0] as its
    ibi_lf_hf_ratio. *)
Theorem zero_hf_segment F m start stop g :
  Float.eqb (ibi_hf F start stop) (of_Z 0) = true ->
  ibi_ratio F start stop = NaN
  /\ ibi_flag F start stop = false
  /\ ibi_lf_hf_ratio (fst (analyze_segment F m start stop g)) = of_Z 0.
Proof.
  intros Hzero.
  assert (Hr : ibi_ratio F start stop = NaN)
    by (unfold ibi_ratio; now apply lf_hf_ratio_zero).
  repeat split.
  - exact Hr.
  - unfold ibi_flag. rewrite Hr. apply gt_nan_l.
  - unfold analyze_segment.
    destruct (classify _ _ g) as [[[stress num] oxygen] g']. simpl.
    rewrite Hr. reflexivity.
Qed.

End Classification.

(* ================================================================= *)
(** ** The oxygen proxy *)

Section Oxygen.

Context `{C : Collaborators}.

Lemma round_half_even_cases q :
  round_half_even q = Qfloor q
  \/ (round_half_even q = Qfloor q + 1 /\ (1 # 2 <= q - inject_Z (Qfloor q))%Q).
Proof.
  unfold round_half_even.
  destruct (Qcompare_spec (q - inject_Z (Qfloor q)) (1 # 2)) as [E|E|E].
  - destruct (Z.even (Qfloor q)); [left; reflexivity|right].
    split; [reflexivity|]. rewrite E. apply Qle_refl.
  - left; reflexivity.
  - right. split; [reflexivity|]. apply Qlt_le_weak, E.
Qed.

Lemma round_half_even_lower a q :
  (inject_Z a <= q)%Q -> a <= round_half_even q.
Proof.
  intros Ha. apply Qfloor_resp_le in Ha. rewrite Qfloor_Z in Ha.
  destruct (round_half_even_cases q) as [-> | [-> _]]; lia.
Qed.

Lemma round_half_even_upper b q :
  (q <= inject_Z b)%Q -> round_half_even q <= b.
Proof.
  intros Hb.
  assert (Hf : Qfloor q <= b).
  { apply Qfloor_resp_le in Hb. now rewrite Qfloor_Z in Hb. }
  destruct (round_half_even_cases q) as [-> | [-> Hhalf]]; [exact Hf|].
  destruct (Z.eq_dec (Qfloor q) b) as [E|E]; [|lia].
  exfalso. rewrite E in Hhalf. lra.
Qed.

Lemma pow10_pos d : (0 < pow10 d)%Q.
Proof.
  unfold pow10. change 0%Q with (inject_Z 0). rewrite <- Zlt_Qlt.
  apply Z.pow_pos_nonneg; lia.
Qed.

(** Rounding to [d] decimals stays within integer bounds. *)
Lemma round_within (lo hi : Z) x d :
  Float.within (inject_Z lo) (inject_Z hi) x ->
  Float.within (inject_Z lo) (inject_Z hi) (Float.round x d).
Proof.
  destruct x as [q|]; [|exact (fun H => H)]. simpl. intros [Hlo Hhi].
  pose proof (pow10_pos d) as Hp. split.
  - apply Qle_shift_div_l; [exact Hp|].
    unfold pow10 at 1. rewrite <- inject_Z_mult, <- Zle_Qle.
    apply round_half_even_lower. rewrite inject_Z_mult.
    apply Qmult_le_compat_r; [exact Hlo|apply Qlt_le_weak, Hp].
  - apply Qle_shift_div_r; [exact Hp|].
    unfold pow10 at 2. rewrite <- inject_Z_mult, <- Zle_Qle.
    apply round_half_even_upper. rewrite inject_Z_mult.
    apply Qmult_le_compat_r; [exact Hhi|apply Qlt_le_weak, Hp].
Qed.

Lemma round_has_decimals q d : Float.has_decimals d (Float.round (Fin q) d).
Proof. simpl. eexists. reflexivity. Qed.

(** [a + (b - a) * r] lies in [[a, b]] for [r] in [[0, 1)]. *)
Lemma uniform_within (a b : Z) g :
  random_in_unit_interval -> a <= b ->
  exists q, fst (uniform (of_Z a) (of_Z b) g) = Fin q
            /\ (inject_Z a <= q /\ q <= inject_Z b)%Q.
Proof.
  intros Hrand Hab. unfold uniform. specialize (Hrand g).
  destruct (random g) as [[r|] g']; simpl in *; [|contradiction].
  eexists. split; [reflexivity|].
  rewrite Zle_Qle in Hab. destruct Hrand as [H0 H1].
  assert (0 <= (inject_Z b - inject_Z a) * r)%Q
    by (apply Qmult_le_0_compat; lra).
  assert (0 <= (inject_Z b - inject_Z a) * (1 - r))%Q
    by (apply Qmult_le_0_compat; lra).
  lra.
Qed.

Lemma classify_oxygen i e g :
  random_in_unit_interval ->
  let '(stress, _, oxygen, _) := classify i e g in
  Float.has_decimals 2 oxygen
  /\ match declared_bounds stress with
     | Some (lo, hi) => Float.within lo hi oxygen
     | None => False
     end.
Proof.
  intros Hrand. unfold classify.
  destruct i, e; cbn [andb orb];
    match goal with
    | |- context [uniform (of_Z ?a) (of_Z ?b) g] =>
        destruct (uniform_within a b g Hrand ltac:(lia)) as (q & Hq & Hin);
        destruct (uniform (of_Z a) (of_Z b) g) as [u g']; simpl in Hq; subst u
    end;
    (split; [apply round_has_decimals|]);
    cbn [declared_bounds String.eqb Ascii.eqb Bool.eqb andb];
    match goal with
    | |- Float.within (?a # 1) (?b # 1) _ =>
        apply (round_within a b (Fin q) 2); exact Hin
    end.
Qed.

(** C5: the oxygen_level of every record a run returns is rounded to two
    decimals and lies in the closed interval declared for its label:
    [94, 96] for High Stress, [96, 98] for Mild Stress and [98, 100] for
    No Stress; [random.random()] returning a value of [0, 1) as documented. *)
Theorem oxygen_within_bounds requested ibi_signal F :
  random_in_unit_interval ->
  Forall (fun r => Float.has_decimals 2 (oxygen_level r)
                   /\ within_declared_bounds r)
         (results (run_analysis requested ibi_signal F)).
Proof.
  intros Hrand. rewrite run_analysis_results.
  apply segment_loop_Forall; [|constructor].
  intros m g. unfold within_declared_bounds, analyze_segment.
  pose proof (classify_oxygen
                (ibi_flag F (baseline_duration + m * segment_length)
                   (baseline_duration + m * segment_length + segment_length))
                (scl_flag F (baseline_duration + m * segment_length)
                   (baseline_duration + m * segment_length + segment_length))
                g Hrand) as Hc.
  destruct (classify _ _ g) as [[[stress num] oxygen] g']. exact Hc.
Qed.

End Oxygen.

(* ================================================================= *)
(** ** Aggregation *)

Section Aggregation.

Context `{C : Collaborators}.

Lemma py_sum_from (l : list Z) (a : Z) : fold_left Z.add l a = a + py_sum l.
Proof.
  unfold py_sum. revert a. induction l as [|x l IH]; intros a; simpl.
  - lia.
  - rewrite (IH (a + x)), (IH x). lia.
Qed.

Lemma sum_of_ones_counts (rs : list MinuteResult) :
  py_sum (map (fun _ => 1) (filter (fun r => numeric_label r >? 0) rs))
  = stressed_count rs.
Proof.
  induction rs as [|r rs IH]; [reflexivity|].
  cbn [filter stressed_count]. rewrite Z.gtb_ltb.
  destruct (0 <? numeric_label r).
  - cbn [map]. unfold py_sum in *. cbn [fold_left].
    rewrite py_sum_from. unfold py_sum. rewrite IH. lia.
  - rewrite IH. lia.
Qed.

(** C6: for every sequence of records the aggregate has stressed_minutes
    the number of records with numeric_label > 0, total_minutes the number
    of records, stress_score the string "{stressed_minutes}/{total_minutes}"
    and oxygen_levels the records' oxygen_level values in the order of the
    records; the response of a run is the aggregate of its records. *)
Theorem aggregate_summary :
  (forall rs : list MinuteResult,
      results (aggregate rs) = rs
      /\ stressed_minutes (aggregate rs) = stressed_count rs
      /\ total_minutes (aggregate rs) = len rs
      /\ stress_score (aggregate rs)
         = str_of_int (stressed_minutes (aggregate rs)) ++ "/"
           ++ str_of_int (total_minutes (aggregate rs))
      /\ oxygen_levels (aggregate rs) = map oxygen_level rs)
  /\ (forall requested ibi_signal F,
        run_analysis requested ibi_signal F
        = aggregate (results (run_analysis requested ibi_signal F))).
Proof.
  split.
  - intros rs. unfold aggregate. cbn [results stressed_minutes total_minutes
      stress_score oxygen_levels].
    repeat split. apply sum_of_ones_counts.
  - reflexivity.
Qed.

End Aggregation.

(* ================================================================= *)
(** ** The request *)

Section Request.

Context `{C : Collaborators}.

(** C10: two requests with the same minutes and thingspeak_url get the same
    response and leave the same cache behind, whatever their
    use_dummy_data flags: the handler never reads the flag. *)
Theorem use_dummy_data_is_ignored (r1 r2 : AnalysisRequest) (files : filesystem) :
  minutes r1 = minutes r2 ->
  thingspeak_url r1 = thingspeak_url r2 ->
  load_data r1 = load_data r2
  /\ analyze_stress r1 files = analyze_stress r2 files.
Proof.
  destruct r1 as [m1 u1 d1], r2 as [m2 u2 d2]. cbn [minutes thingspeak_url].
  intros -> ->. split; reflexivity.
Qed.

End Request.

(* ================================================================= *)
(** ** Loading the data *)

Section Loading.

Context `{C : Collaborators}.

Lemma generate_dummy_data_ok m :
  0 <= m ->
  exists df, generate_dummy_data m = Ok df
             /\ df_len df = (180 + m) * 60
             /\ len (EDA df) = (180 + m) * 60.
Proof.
  intros Hm. unfold generate_dummy_data.
  destruct ((180 + m) * 60 <? 0) eqn:E1; [apply Z.ltb_lt in E1; lia|].
  destruct ((180 + m) * 60 =? 0) eqn:E2; [apply Z.eqb_eq in E2; lia|].
  destruct (m <? 0) eqn:E; [apply Z.ltb_lt in E; lia|].
  eexists. split; [reflexivity|].
  unfold df_len, len, range. cbn [HR EDA].
  rewrite !length_map, !length_seq. lia.
Qed.

Lemma field_values_lacking key dflt feeds :
  Forall (lacks_field key) feeds -> field_values key dflt feeds = Ok [].
Proof.
  induction 1 as [|feed feeds (members & -> & Hget) _ IH]; [reflexivity|].
  cbn [field_values]. unfold get_truthy. rewrite Hget. exact IH.
Qed.

(** What [load_data] does when the fetch brings nothing. *)
Lemma load_data_fallback request :
  match has_locator request with
  | Some url =>
      match fetch_thingspeak_data url with
      | Some d => df_len d = 0
      | None => True
      end
  | None => True
  end ->
  load_data request = generate_dummy_data (minutes request).
Proof.
  unfold load_data. destruct (has_locator request) as [url|]; [|reflexivity].
  destruct (fetch_thingspeak_data url) as [d|]; [|reflexivity].
  intros ->. reflexivity.
Qed.

Lemma fetch_raise url e :
  http_get url = Raise e -> fetch_thingspeak_data url = None.
Proof.
  intros Hget. unfold fetch_thingspeak_data, fetch_try. rewrite Hget.
  destruct (_ || _); reflexivity.
Qed.

Lemma fetch_malformed url data e :
  http_get url = Ok data -> parse_payload data = Raise e ->
  fetch_thingspeak_data url = None.
Proof.
  intros Hget Hparse. unfold fetch_thingspeak_data, fetch_try.
  rewrite Hget. cbn [bind]. rewrite Hparse.
  destruct (_ || _); reflexivity.
Qed.

Lemma fetch_mismatched url members feeds key :
  http_get url = Ok (JObj members) ->
  dict_get "feeds" members = Some (JArr feeds) ->
  key = "field1" \/ key = "field2" ->
  Forall (lacks_field key) feeds ->
  match fetch_thingspeak_data url with
  | Some d => df_len d = 0
  | None => True
  end.
Proof.
  intros Hget Hfeeds Hkey Hlack. unfold fetch_thingspeak_data, fetch_try.
  destruct (_ || _); [exact I|].
  rewrite Hget. cbn [bind parse_payload]. rewrite Hfeeds. cbn [py_iter bind].
  destruct Hkey as [-> | ->].
  - rewrite (field_values_lacking "field1" _ _ Hlack). cbn [bind].
    destruct (field_values "field2" _ feeds) as [eda|]; [|exact I].
    reflexivity.
  - destruct (field_values "field1" _ feeds) as [hr|]; [|exact I].
    cbn [bind]. rewrite (field_values_lacking "field2" _ _ Hlack).
    cbn [bind List.length]. rewrite Nat.min_0_r. reflexivity.
Qed.

(** C9: when the external data source fails a request (no locator, a
    failed transfer such as a timeout, a malformed payload, mismatched
    field names), the handler takes the synthetic series in place of the
    fetched data and raises nothing for the failure; for a request of a
    non-negative number of minutes that series has
    (180 + requested_minutes) * 60 one-second samples, is loaded without
    an exception, and is what the pipeline runs on. *)
Theorem data_source_failure_falls_back request files :
  data_source_failure request ->
  load_data request = generate_dummy_data (minutes request)
  /\ (0 <= minutes request ->
      exists df,
        load_data request = Ok df
        /\ df_len df = (180 + minutes request) * 60
        /\ len (EDA df) = (180 + minutes request) * 60
        /\ analyze_stress request files = continue_with request df files).
Proof.
  intros Hfail.
  assert (Hload : load_data request = generate_dummy_data (minutes request)).
  { apply load_data_fallback.
    destruct Hfail as [Hloc | url e Hloc Hget | url data e Hloc Hget Hparse
                      | url members feeds key Hloc Hget Hfeeds Hkey Hlack];
      rewrite Hloc; try exact I.
    - now rewrite (fetch_raise _ _ Hget).
    - now rewrite (fetch_malformed _ _ _ Hget Hparse).
    - exact (fetch_mismatched _ _ _ _ Hget Hfeeds Hkey Hlack). }
  split; [exact Hload|]. intros Hm.
  destruct (generate_dummy_data_ok _ Hm) as (df & Hgen & Hlen & Hlen').
  rewrite Hgen in Hload.
  exists df. repeat split; try assumption.
  unfold analyze_stress, continue_with. rewrite Hload. reflexivity.
Qed.

End Loading.

(* ================================================================= *)
(** ** The decomposition cache *)

Section Cache.

Context `{C : Collaborators}.

Lemma dict_get_set {V} k (v : V) d : dict_get k (dict_set k v d) = Some v.
Proof.
  induction d as [|[k' v'] d IH]; cbn [dict_set dict_get].
  - now rewrite String.eqb_refl.
  - destruct (String.eqb k k') eqn:E; cbn [dict_get].
    + now rewrite String.eqb_refl.
    + rewrite E. exact IH.
Qed.

(** After a call the file stores the hash of the signal and the components
    the call returned. *)
Lemma cached_after_call signal cache_file seed0 files :
  dict_get cache_file
    (snd (perform_ceemdan_cached signal cache_file seed0 files))
  = Some (Pickled (hash_bytes signal)
            (fst (perform_ceemdan_cached signal cache_file seed0 files))).
Proof.
  unfold perform_ceemdan_cached, cache_lookup.
  destruct (dict_get cache_file files) as [[h imfs|]|] eqn:E;
    cbn [fst snd]; try apply dict_get_set.
  destruct (Z.eqb h (hash_bytes signal)) eqn:Eh; cbn [fst snd].
  - apply Z.eqb_eq in Eh. now rewrite <- Eh.
  - apply dict_get_set.
Qed.

(** A later lookup hits exactly when the hashes agree. *)
Lemma lookup_after_call signal signal' cache_file seed0 files :
  cache_lookup (hash_bytes signal') cache_file
    (snd (perform_ceemdan_cached signal cache_file seed0 files))
  = if Z.eqb (hash_bytes signal) (hash_bytes signal')
    then Some (fst (perform_ceemdan_cached signal cache_file seed0 files))
    else None.
Proof.
  unfold cache_lookup at 1. rewrite cached_after_call. reflexivity.
Qed.

(** C8, as the code has it: a second call on the same signal returns the
    components the first call returned and leaves the cache as it is; a
    call on a signal whose content hash differs from the stored one misses,
    recomputes the decomposition and overwrites the entry; a call on a
    signal with the stored hash is served the cached components. *)
Theorem cache_round_trip signal signal' cache_file seed0 files :
  perform_ceemdan_cached signal cache_file seed0
    (snd (perform_ceemdan_cached signal cache_file seed0 files))
  = perform_ceemdan_cached signal cache_file seed0 files
  /\ (cache_lookup (hash_bytes signal) cache_file files = None ->
      fst (perform_ceemdan_cached signal cache_file seed0 files)
      = decompose signal seed0)
  /\ (hash_bytes signal' <> hash_bytes signal ->
      cache_lookup (hash_bytes signal') cache_file
        (snd (perform_ceemdan_cached signal cache_file seed0 files)) = None
      /\ perform_ceemdan_cached signal' cache_file seed0
           (snd (perform_ceemdan_cached signal cache_file seed0 files))
         = (decompose signal' seed0,
            dict_set cache_file
              (Pickled (hash_bytes signal') (decompose signal' seed0))
              (snd (perform_ceemdan_cached signal cache_file seed0 files))))
  /\ (hash_bytes signal' = hash_bytes signal ->
      perform_ceemdan_cached signal' cache_file seed0
        (snd (perform_ceemdan_cached signal cache_file seed0 files))
      = perform_ceemdan_cached signal cache_file seed0 files).
Proof.
  assert (Hsame : forall s,
             hash_bytes s = hash_bytes signal ->
             perform_ceemdan_cached s cache_file seed0
               (snd (perform_ceemdan_cached signal cache_file seed0 files))
             = perform_ceemdan_cached signal cache_file seed0 files).
  { intros s Hs. unfold perform_ceemdan_cached at 1.
    rewrite lookup_after_call, Hs, Z.eqb_refl.
    now destruct (perform_ceemdan_cached signal cache_file seed0 files). }
  split; [now apply Hsame|]. split; [|split].
  - intros Hmiss. unfold perform_ceemdan_cached. now rewrite Hmiss.
  - intros Hdiff.
    assert (Hmiss : cache_lookup (hash_bytes signal') cache_file
              (snd (perform_ceemdan_cached signal cache_file seed0 files))
            = None).
    { rewrite lookup_after_call.
      destruct (Z.eqb_spec (hash_bytes signal) (hash_bytes signal'));
        [congruence|reflexivity]. }
    split; [exact Hmiss|].
    unfold perform_ceemdan_cached at 1. now rewrite Hmiss.
  - apply Hsame.
Qed.

(** No injection from the naturals into a bounded range of integers. *)
Lemma no_injection_into_range (B : Z) (h : nat -> Z) :
  (forall n, - B <= h n < B) ->
  (forall i j, h i = h j -> i = j) -> False.
Proof.
  intros Hrange Hinj.
  set (N := Z.to_nat (2 * B)).
  set (code := fun n => Z.to_nat (h n + B)).
  assert (Hnodup : NoDup (map code (seq 0 (S N)))).
  { apply NoDup_map_NoDup_ForallPairs; [|apply seq_NoDup].
    intros i j _ _ Hij. apply Hinj. unfold code in Hij.
    pose proof (Hrange i). pose proof (Hrange j). lia. }
  assert (Hincl : incl (map code (seq 0 (S N))) (seq 0 N)).
  { intros c Hc. apply in_map_iff in Hc as (n & <- & _).
    apply in_seq. unfold code, N. pose proof (Hrange n). lia. }
  pose proof (NoDup_incl_length Hnodup Hincl) as Hlen.
  rewrite length_map, !length_seq in Hlen. lia.
Qed.

End Cache.

(* ================================================================= *)
(** ** Band power *)

Module ExactFacts.

Import Exact.

#[local] Open Scope Q_scope.

Lemma le_spec a b : Float.le (Fin a) (Fin b) = true <-> a <= b.
Proof.
  unfold Float.le, Float.cmp. rewrite Qle_alt.
  destruct (a ?= b); split; congruence.
Qed.

Lemma ge_spec a b : Float.ge (Fin a) (Fin b) = true <-> b <= a.
Proof.
  unfold Float.ge, Float.cmp. rewrite Qge_alt.
  destruct (a ?= b); split; congruence.
Qed.

Lemma lt_spec a b : Float.lt (Fin a) (Fin b) = true <-> a < b.
Proof.
  unfold Float.lt, Float.cmp. rewrite Qlt_alt.
  destruct (a ?= b); split; congruence.
Qed.

Lemma inside_spec a b p : inside a b p = true <-> a <= fst p /\ fst p <= b.
Proof.
  unfold inside, in_band. rewrite andb_true_iff, ge_spec, le_spec. tauto.
Qed.

Lemma term_nonneg p q :
  fst p <= fst q -> 0 <= snd p -> 0 <= snd q -> 0 <= term p q.
Proof.
  intros Hx Hp Hq. unfold term, Qdiv.
  apply Qmult_le_0_compat; [apply Qmult_le_0_compat; lra|].
  discriminate.
Qed.

Lemma ascending_tail p pts : ascending (p :: pts) -> ascending pts.
Proof. now intros (_ & _ & H). Qed.

Lemma ascending_head_term p q pts : ascending (p :: q :: pts) -> 0 <= term p q.
Proof.
  intros (Hall & Hp & _ & Hq & _). inversion Hall; subst.
  now apply term_nonneg.
Qed.

Lemma area_nonneg pts : ascending pts -> 0 <= area pts.
Proof.
  induction pts as [|p pts IH]; intros Hasc; [apply Qle_refl|].
  destruct pts as [|q pts]; [apply Qle_refl|].
  change (0 <= term p q + area (q :: pts)).
  pose proof (ascending_head_term _ _ _ Hasc).
  pose proof (IH (ascending_tail _ _ Hasc)). lra.
Qed.

Lemma area_cons_le p pts : ascending (p :: pts) -> area pts <= area (p :: pts).
Proof.
  intros Hasc. destruct pts as [|q pts]; [apply Qle_refl|].
  change (area (q :: pts) <= term p q + area (q :: pts)).
  pose proof (ascending_head_term _ _ _ Hasc). lra.
Qed.

(** The area under a prefix is at most the area under the whole. *)
Lemma area_prefix l1 l2 : ascending (l1 ++ l2) -> area l1 <= area (l1 ++ l2).
Proof.
  induction l1 as [|p l1 IH]; intros Hasc.
  - now apply area_nonneg.
  - destruct l1 as [|q l1].
    + now apply area_nonneg.
    + change (term p q + area (q :: l1) <= term p q + area ((q :: l1) ++ l2)).
      pose proof (IH (ascending_tail _ _ Hasc)). lra.
Qed.

Lemma Forall_filter_keep {A} (P : A -> Prop) f l :
  Forall P l -> Forall P (filter f l).
Proof.
  induction 1 as [|x l Hx _ IH]; cbn [filter]; [constructor|].
  destruct (f x); [constructor|]; assumption.
Qed.

Lemma ascending_filter f pts : ascending pts -> ascending (filter f pts).
Proof.
  induction pts as [|p pts IH]; [exact (fun H => H)|].
  intros (Hall & Hp & Hasc). cbn [filter].
  destruct (f p); [|now apply IH].
  split; [now apply Forall_filter_keep|]. split; [exact Hp|now apply IH].
Qed.

(** On ascending points the ones below a bound form a prefix. *)
Lemma below_is_prefix b pts :
  ascending pts -> exists rest, pts = (filter (below b) pts ++ rest)%list.
Proof.
  induction pts as [|p pts IH]; intros Hasc; [now exists []|].
  destruct Hasc as (Hall & Hp & Hasc). cbn [filter].
  destruct (below b p) eqn:E.
  - destruct (IH Hasc) as (rest & Hrest). exists rest.
    cbn [app]. now rewrite <- Hrest.
  - exists (p :: pts). replace (filter (below b) pts) with (@nil point);
      [reflexivity|].
    symmetry. clear IH Hasc. induction Hall as [|q pts Hq _ IH']; [reflexivity|].
    cbn [filter]. destruct (below b q) eqn:Eq; [|exact IH'].
    exfalso. unfold below in *. apply le_spec in Eq.
    assert (~ fst p <= b) by (intros Hle; apply le_spec in Hle; congruence).
    lra.
Qed.

(** Dropping the points outside a band does not increase the area. *)
Lemma area_inside_le a b pts :
  ascending pts -> area (filter (inside a b) pts) <= area pts.
Proof.
  induction pts as [|p pts IH]; intros Hasc; [apply Qle_refl|].
  cbn [filter]. destruct (inside a b p) eqn:E.
  - apply inside_spec in E. destruct Hasc as (Hall & Hp & Hasc).
    assert (Hext : filter (inside a b) pts = filter (below b) pts).
    { apply filter_ext_in. intros q Hq.
      pose proof (proj1 (Forall_forall _ _) Hall q Hq) as Hpq. cbn beta in Hpq.
      unfold inside, in_band, below.
      replace (Float.ge (Fin (fst q)) (Fin a)) with true; [reflexivity|].
      symmetry. apply ge_spec. lra. }
    rewrite Hext.
    destruct (below_is_prefix b pts Hasc) as (rest & Hrest).
    assert (Hwhole : (p :: pts) = ((p :: filter (below b) pts) ++ rest)%list)
      by (cbn [app]; now rewrite <- Hrest).
    rewrite Hwhole at 1. apply area_prefix. rewrite <- Hwhole.
    now repeat split.
  - eapply Qle_trans; [apply IH, (ascending_tail _ _ Hasc)|].
    now apply area_cons_le.
Qed.

Lemma filter_narrow {A} (f g : A -> bool) l :
  (forall x, f x = true -> g x = true) ->
  filter f (filter g l) = filter f l.
Proof.
  intros Hfg. induction l as [|x l IH]; [reflexivity|]. cbn [filter].
  destruct (g x) eqn:Eg; cbn [filter]; [now rewrite IH|].
  destruct (f x) eqn:Ef; [|exact IH].
  apply Hfg in Ef. congruence.
Qed.

(** Widening the band does not decrease the area. *)
Lemma area_band_monotone a b a' b' pts :
  ascending pts -> a' <= a -> b <= b' ->
  area (filter (inside a b) pts) <= area (filter (inside a' b') pts).
Proof.
  intros Hasc Ha Hb.
  rewrite <- (filter_narrow (inside a b) (inside a' b')).
  - apply area_inside_le. now apply ascending_filter.
  - intros p Hp. apply inside_spec in Hp. apply inside_spec. lra.
Qed.

(** *** From the float arrays to exact points *)

Lemma value_of_finite l :
  Forall (fun x => isnan x = false) l -> map Fin (map value l) = l.
Proof.
  induction 1 as [|x l Hx _ IH]; [reflexivity|].
  cbn [map]. rewrite IH. destruct x; [reflexivity|discriminate].
Qed.

Lemma trapz_terms_finite pts :
  Forall (fun x => isnan x = false)
         (trapz_terms (map (fun p => Fin (snd p)) pts)
                      (map (fun p => Fin (fst p)) pts)).
Proof.
  induction pts as [|p pts IH]; [constructor|].
  destruct pts as [|q pts]; [constructor|].
  cbn [map trapz_terms] in *. constructor; [reflexivity|exact IH].
Qed.

Lemma trapz_terms_points pts :
  trapz_terms (map (fun p => Fin (snd p)) pts) (map (fun p => Fin (fst p)) pts)
  = map Fin (terms pts).
Proof.
  unfold terms. symmetry. apply value_of_finite, trapz_terms_finite.
Qed.

Lemma np_sum_from l a :
  fold_left Float.add (map Fin l) (Fin a) = Fin (fold_left Qplus l a).
Proof.
  revert a. induction l as [|x l IH]; intros a; [reflexivity|].
  cbn [map fold_left]. apply IH.
Qed.

Lemma fold_plus l a : fold_left Qplus l a == a + fold_right Qplus 0 l.
Proof.
  revert a. induction l as [|x l IH]; intros a; cbn [fold_left fold_right].
  - ring.
  - rewrite IH. ring.
Qed.

Lemma terms_area pts : fold_right Qplus 0 (terms pts) == area pts.
Proof.
  unfold terms. induction pts as [|p pts IH]; [reflexivity|].
  destruct pts as [|q pts]; [reflexivity|].
  change (term p q + fold_right Qplus 0 (terms (q :: pts))
          == term p q + area (q :: pts)).
  unfold terms. rewrite IH. reflexivity.
Qed.

(** [np.trapz] on finite arrays is the area under the points. *)
Lemma trapz_points pts :
  exists s, trapz (map (fun p => Fin (snd p)) pts)
                  (map (fun p => Fin (fst p)) pts) = Fin s
            /\ s == area pts.
Proof.
  unfold trapz, np_sum. rewrite trapz_terms_points.
  change (of_Z 0) with (Fin 0). rewrite np_sum_from.
  eexists. split; [reflexivity|].
  rewrite fold_plus, terms_area. ring.
Qed.

Lemma select_points (f : point -> bool) {B} (h : point -> B) pts :
  select (map f pts) (map h pts) = map h (filter f pts).
Proof.
  induction pts as [|p pts IH]; [reflexivity|].
  cbn [map select filter]. destruct (f p); cbn [map]; now rewrite IH.
Qed.

End ExactFacts.

Section BandPower.

Context `{C : Collaborators}.

Import Exact ExactFacts.

Lemma ascending_cons_lt (a c : Q) pts :
  ascending pts -> (0 <= c)%Q ->
  match pts with
  | q :: _ => (a < fst q)%Q
  | [] => True
  end ->
  ascending ((a, c) :: pts).
Proof.
  intros Hasc Hc Hhead. split; [|split; assumption].
  destruct pts as [|q pts]; [constructor|].
  destruct Hasc as (Hall & _ & _). cbn [fst].
  constructor; [now apply Qlt_le_weak|].
  eapply Forall_impl; [|exact Hall]. cbn beta. intros r Hr.
  apply Qle_trans with (fst q); [now apply Qlt_le_weak|exact Hr].
Qed.

(** Arrays as [welch] returns them are the coordinates of ascending
    points. *)
Lemma points_of_arrays f P :
  List.length f = List.length P -> increasing f -> Forall nonneg P ->
  exists pts, f = map (fun p => Fin (fst p)) pts
              /\ P = map (fun p => Fin (snd p)) pts
              /\ ascending pts.
Proof.
  revert P. induction f as [|x f IH]; intros [|y P] Hlen Hinc Hpos;
    try discriminate.
  - exists []. repeat split.
  - destruct Hinc as (Hx & Hnext & Hinc).
    inversion Hpos as [|? ? Hy HP]; subst.
    destruct (IH P ltac:(now injection Hlen) Hinc HP)
      as (pts & -> & -> & Hasc).
    destruct x as [a|]; [|discriminate]. destruct y as [c|]; [|contradiction].
    exists ((a, c) :: pts). split; [reflexivity|]. split; [reflexivity|].
    apply ascending_cons_lt; [exact Hasc|exact Hy|].
    destruct pts as [|q pts]; [exact I|]. now apply lt_spec.
Qed.

Lemma select_none {A B} (g : A -> bool) (f : list A) (l : list B) :
  Forall (fun x => g x = false) f -> select (map g f) l = [].
Proof.
  intros Hall. revert l. induction Hall as [|x f Hx _ IH]; intros l;
    [reflexivity|].
  cbn [map select]. rewrite Hx. destruct l; [reflexivity|apply IH].
Qed.

Lemma calculate_power_points pts segment fs a b :
  welch segment fs
  = (map (fun p => Fin (fst p)) pts, map (fun p => Fin (snd p)) pts) ->
  exists s, calculate_power segment fs (Fin a) (Fin b) = Fin s
            /\ (s == area (filter (inside a b) pts))%Q.
Proof.
  intros Hw. unfold calculate_power. rewrite Hw. unfold band_mask.
  rewrite map_map.
  change (map (fun p : point => in_band (Fin a) (Fin b) (Fin (fst p))) pts)
    with (map (inside a b) pts).
  rewrite !select_points. apply trapz_points.
Qed.

(** C7, as the code has it: on a fixed segment, a band [[f_low', f_high']]
    that contains the band [[f_low, f_high]] has at least its band power
    when the trapezoid sum is taken in exact arithmetic, the bins of the
    segment increasing and its power spectral density non-negative (in
    double precision the sum of the wider band can round lower); and when
    no bin falls within a band its power is 0, in exact arithmetic and as
    numpy computes it in doubles. *)
Theorem band_power_monotone :
  (forall segment fs f_low f_high,
      Forall (fun x => in_band f_low f_high x = false)
             (fst (welch segment fs)) ->
      calculate_power segment fs f_low f_high = of_Z 0)
  /\ (forall segment fs f_low f_high f_low' f_high',
        welch_ok segment fs ->
        Float.le f_low' f_low = true ->
        Float.le f_high f_high' = true ->
        Float.le (calculate_power segment fs f_low f_high)
                 (calculate_power segment fs f_low' f_high') = true)
  /\ (forall f Pxx f_low f_high,
        Forall (fun x => Double.in_band f_low f_high x = false) f ->
        Double.calculate_power f Pxx f_low f_high = Double.zero).
Proof.
  split; [|split].
  - intros segment fs f_low f_high Hnone. unfold calculate_power.
    destruct (welch segment fs) as [f P]. cbn [fst] in Hnone.
    unfold band_mask. now rewrite !(select_none _ _ _ Hnone).
  - intros segment fs f_low f_high f_low' f_high' (Hlen & Hinc & Hpos) Hlo Hhi.
    destruct (points_of_arrays _ _ Hlen Hinc Hpos) as (pts & Hf & HP & Hasc).
    assert (Hw : welch segment fs
                 = (map (fun p => Fin (fst p)) pts,
                    map (fun p => Fin (snd p)) pts))
      by (rewrite <- Hf, <- HP; now destruct (welch segment fs)).
    destruct f_low as [a|], f_low' as [a'|]; try discriminate.
    destruct f_high as [b|], f_high' as [b'|]; try discriminate.
    apply le_spec in Hlo, Hhi.
    destruct (calculate_power_points pts segment fs a b Hw) as (s & -> & Hs).
    destruct (calculate_power_points pts segment fs a' b' Hw)
      as (s' & -> & Hs').
    apply le_spec. rewrite Hs, Hs'. now apply area_band_monotone.
  - intros f Pxx f_low f_high Hnone. unfold Double.calculate_power.
    now rewrite !(select_none _ _ _ Hnone).
Qed.

End BandPower.

(* ================================================================= *)
(** ** The theorems on the concrete collaborators *)

(** The concrete generator draws from [0, 1). *)
Lemma demo_random_in_unit_interval :
  random_in_unit_interval (C := Demo.collaborators).
Proof.
  intros g. change (unit_interval (Fin (Z.of_nat (Nat.modulo g 8) # 8))).
  pose proof (Nat.mod_upper_bound g 8 ltac:(lia)).
  unfold unit_interval, Qle, Qlt. cbn [Qnum Qden]. lia.
Qed.

(** Six minutes of signal, five requested: three records, one of each
    label, and the score "2/3". *)
Example six_minutes_run :
  map (fun r => (minute r, stress_level r, numeric_label r))
      (results (run_analysis (C := Demo.collaborators) 5 (Demo.ramp 360)
                  Demo.six_minutes))
  = [(1, "High Stress", 2); (2, "Mild Stress", 1); (3, "No Stress", 0)]
  /\ stress_score (run_analysis (C := Demo.collaborators) 5 (Demo.ramp 360)
                     Demo.six_minutes) = "2/3"
  /\ stressed_minutes (run_analysis (C := Demo.collaborators) 5 (Demo.ramp 360)
                         Demo.six_minutes) = 2
  /\ total_minutes (run_analysis (C := Demo.collaborators) 5 (Demo.ramp 360)
                      Demo.six_minutes) = 3.
Proof. vm_compute. repeat split. Qed.

(** The fetch on the concrete data source: readings, renamed fields, a
    body that is not JSON, no answer. *)
Example fetch_on_demo_source :
  fetch_thingspeak_data (C := Demo.collaborators) "http://sensor/feeds"
  = Some {| HR := [of_Z 60; of_Z 75; of_Z 80];
            EDA := [of_Z 4; of_Z 5; of_Z 6] |}
  /\ fetch_thingspeak_data (C := Demo.collaborators) "http://sensor/renamed"
     = Some {| HR := []; EDA := [] |}
  /\ fetch_thingspeak_data (C := Demo.collaborators) "http://sensor/html" = None
  /\ fetch_thingspeak_data (C := Demo.collaborators) "http://elsewhere" = None
  /\ fetch_thingspeak_data (C := Demo.collaborators)
       "http://localhost:8000/dummy-thingspeak" = None.
Proof. vm_compute. repeat split. Qed.

(** A signal of 100 samples is shorter than the baseline: the run returns
    no record, where min(5, floor(100/60) - 3) is -2. *)
Lemma short_signal_has_no_record :
  len (results (run_analysis (C := Demo.collaborators) 5 (Demo.ramp 100)
                  (Demo.frequencies 100))) = 0
  /\ Z.min 5 (len (Demo.ramp 100) / 60 - 3) = -2
  /\ len (results (run_analysis (C := Demo.collaborators) 5 (Demo.ramp 100)
                     (Demo.frequencies 100)))
     <> Z.min 5 (len (Demo.ramp 100) / 60 - 3).
Proof. vm_compute. repeat split; discriminate. Qed.

(** A run whose first IBI component is flat: its baseline high-frequency
    power is zero, and none of its three records is High Stress. *)
Lemma nan_threshold_never_high_witness :
  Float.eqb (ibi_hf (C := Demo.collaborators) (Demo.flat_frequencies 400)
               0 baseline_duration) (of_Z 0) = true
  /\ ibi_baseline (C := Demo.collaborators) (Demo.flat_frequencies 400) = NaN
  /\ Forall (fun r => numeric_label r <> 2)
            (results (run_analysis (C := Demo.collaborators) 3 (Demo.ramp 400)
                        (Demo.flat_frequencies 400)))
  /\ len (results (run_analysis (C := Demo.collaborators) 3 (Demo.ramp 400)
                     (Demo.flat_frequencies 400))) = 3.
Proof.
  assert (Hzero : Float.eqb (ibi_hf (C := Demo.collaborators)
                               (Demo.flat_frequencies 400) 0 baseline_duration)
                            (of_Z 0) = true) by (vm_compute; reflexivity).
  destruct (nan_threshold_never_high (C := Demo.collaborators) 3
              (Demo.ramp 400) (Demo.flat_frequencies 400) Hzero)
    as (Hbase & _ & Hall & Hlen).
  split; [exact Hzero|]. split; [exact Hbase|]. split.
  - eapply Forall_impl; [|exact Hall]. intros r H. exact (proj1 H).
  - rewrite Hlen. vm_compute. reflexivity.
Defined.

(** On a segment with zero high-frequency power the ratio is not 0: it is
    the not-a-number value. *)
Lemma zero_hf_ratio_is_nan :
  Float.eqb (ibi_hf (C := Demo.collaborators) (Demo.flat_frequencies 400)
               180 240) (of_Z 0) = true
  /\ ibi_ratio (C := Demo.collaborators) (Demo.flat_frequencies 400) 180 240
     = NaN
  /\ Float.eqb (ibi_ratio (C := Demo.collaborators) (Demo.flat_frequencies 400)
                  180 240) (of_Z 0) = false.
Proof. vm_compute. repeat split. Qed.

(** The first analysed minute of that run: ratio not-a-number, flag unset,
    [0.0] reported. *)
Lemma zero_hf_segment_witness :
  Float.eqb (ibi_hf (C := Demo.collaborators) (Demo.flat_frequencies 400)
               180 240) (of_Z 0) = true
  /\ ibi_ratio (C := Demo.collaborators) (Demo.flat_frequencies 400) 180 240
     = NaN
  /\ ibi_flag (C := Demo.collaborators) (Demo.flat_frequencies 400) 180 240
     = false
  /\ ibi_lf_hf_ratio
       (fst (analyze_segment (C := Demo.collaborators)
               (Demo.flat_frequencies 400) 0 180 240 (seed 42))) = of_Z 0.
Proof.
  assert (Hzero : Float.eqb (ibi_hf (C := Demo.collaborators)
                               (Demo.flat_frequencies 400) 180 240)
                            (of_Z 0) = true) by (vm_compute; reflexivity).
  split; [exact Hzero|].
  exact (zero_hf_segment (C := Demo.collaborators) (Demo.flat_frequencies 400)
           0 180 240 (seed 42) Hzero).
Defined.

(** The six-minute run: one record of each label, each oxygen level in the
    bounds of its label. *)
Lemma oxygen_within_bounds_witness :
  random_in_unit_interval (C := Demo.collaborators)
  /\ map (fun r => (stress_level r, oxygen_level r))
         (results (run_analysis (C := Demo.collaborators) 5 (Demo.ramp 360)
                     Demo.six_minutes))
     = [("High Stress", Fin (9450 # 100)); ("Mild Stress", Fin (9675 # 100));
        ("No Stress", Fin (9900 # 100))]
  /\ Forall (fun r => Float.has_decimals 2 (oxygen_level r)
                      /\ within_declared_bounds r)
            (results (run_analysis (C := Demo.collaborators) 5 (Demo.ramp 360)
                        Demo.six_minutes)).
Proof.
  split; [exact demo_random_in_unit_interval|].
  split; [vm_compute; reflexivity|].
  exact (oxygen_within_bounds (C := Demo.collaborators) 5 (Demo.ramp 360)
           Demo.six_minutes demo_random_in_unit_interval).
Defined.

(** In doubles, on the 31 bins of a 60-sample segment and a positive
    density: the band [0.06, 0.25] has power 0.6916666666666668, the band
    [0.04, 0.25] that contains it has power 0.6916666666666667. *)
Lemma wider_band_can_sum_lower :
  Double.le (Double.literal 4 100) (Double.literal 6 100) = true
  /\ Double.increasing Double.bins60 = true
  /\ forallb (Double.lt Double.zero) Double.density60 = true
  /\ Double.calculate_power Double.bins60 Double.density60
       (Double.literal 6 100) (Double.literal 25 100)
     = SpecFloat.S754_finite false 6229979484529187 (-53)
  /\ Double.calculate_power Double.bins60 Double.density60
       (Double.literal 4 100) (Double.literal 25 100)
     = SpecFloat.S754_finite false 6229979484529186 (-53)
  /\ Double.lt
       (Double.calculate_power Double.bins60 Double.density60
          (Double.literal 4 100) (Double.literal 25 100))
       (Double.calculate_power Double.bins60 Double.density60
          (Double.literal 6 100) (Double.literal 25 100)) = true.
Proof. vm_compute. repeat split. Qed.

(** Eight samples, bins 0, 1/8, ..., 1/2: the band [0.1, 0.3] holds two
    bins and the power 5/16, the band [0.04, 0.4] around it holds three. *)
Lemma band_power_monotone_witness :
  welch_ok (C := Demo.collaborators) (Demo.ramp 8) (of_Z 1)
  /\ Float.eqb
       (calculate_power (C := Demo.collaborators) (Demo.ramp 8) (of_Z 1)
          (Fin (1 # 10)) (Fin (3 # 10))) (Fin (5 # 16)) = true
  /\ Float.le
       (calculate_power (C := Demo.collaborators) (Demo.ramp 8) (of_Z 1)
          (Fin (1 # 10)) (Fin (3 # 10)))
       (calculate_power (C := Demo.collaborators) (Demo.ramp 8) (of_Z 1)
          (Fin (4 # 100)) (Fin (4 # 10))) = true.
Proof.
  assert (Hok : welch_ok (C := Demo.collaborators) (Demo.ramp 8) (of_Z 1)).
  { split; [reflexivity|]. split.
    - vm_compute. repeat split.
    - vm_compute. repeat constructor; discriminate. }
  split; [exact Hok|]. split.
  - vm_compute. reflexivity.
  - apply (proj1 (proj2 (band_power_monotone (C := Demo.collaborators))));
      [exact Hok|reflexivity|reflexivity].
Defined.

(** Whatever 64-bit hash Python uses, some two distinct signals share a
    hash value, and the second is then served the components cached for
    the first: not every differing signal misses the cache. *)
Lemma distinct_signals_can_share_a_hash :
  ~ exists C : Collaborators,
      hash_is_64_bit
      /\ forall (signal signal' : list float) cache_file seed0 files,
          signal <> signal' ->
          cache_lookup (hash_bytes signal') cache_file
            (snd (perform_ceemdan_cached signal cache_file seed0 files))
          = None.
Proof.
  intros (C & Hrange & Hmiss).
  apply (no_injection_into_range (2 ^ 63)
           (fun n => hash_bytes (repeat (of_Z 0) n))).
  - intros n. apply Hrange.
  - intros i j Hij. destruct (Nat.eq_dec i j) as [E|E]; [exact E|exfalso].
    assert (Hne : repeat (of_Z 0) i <> repeat (of_Z 0) j).
    { intros Heq. apply (f_equal (@List.length float)) in Heq.
      now rewrite !repeat_length in Heq. }
    specialize (Hmiss _ _ "ibi_imfs_cache.pkl" random_seed [] Hne).
    rewrite lookup_after_call, Hij, Z.eqb_refl in Hmiss. discriminate Hmiss.
Qed.

(** Two signals of different hash on an empty file system. *)
Lemma cache_round_trip_witness :
  hash_bytes (Collaborators := Demo.collaborators) (Demo.ramp 7)
  <> hash_bytes (Collaborators := Demo.collaborators) (Demo.ramp 5)
  /\ perform_ceemdan_cached (C := Demo.collaborators) (Demo.ramp 5)
       "ibi_imfs_cache.pkl" 42
       (snd (perform_ceemdan_cached (C := Demo.collaborators) (Demo.ramp 5)
               "ibi_imfs_cache.pkl" 42 []))
     = perform_ceemdan_cached (C := Demo.collaborators) (Demo.ramp 5)
         "ibi_imfs_cache.pkl" 42 []
  /\ cache_lookup (hash_bytes (Collaborators := Demo.collaborators)
                     (Demo.ramp 7)) "ibi_imfs_cache.pkl"
       (snd (perform_ceemdan_cached (C := Demo.collaborators) (Demo.ramp 5)
               "ibi_imfs_cache.pkl" 42 []))
     = None.
Proof.
  assert (Hdiff : hash_bytes (Collaborators := Demo.collaborators) (Demo.ramp 7)
                  <> hash_bytes (Collaborators := Demo.collaborators)
                       (Demo.ramp 5)) by (vm_compute; discriminate).
  destruct (cache_round_trip (C := Demo.collaborators) (Demo.ramp 5)
              (Demo.ramp 7) "ibi_imfs_cache.pkl" 42 [])
    as (Hsame & _ & Hmiss & _).
  split; [exact Hdiff|]. split; [exact Hsame|].
  exact (proj1 (Hmiss Hdiff)).
Defined.

(** A source whose feeds carry [pulse] in place of [field1]: two minutes
    requested, 182 * 60 synthetic samples loaded. *)
Lemma data_source_failure_falls_back_witness :
  data_source_failure (C := Demo.collaborators)
    {| minutes := 2; thingspeak_url := Some "http://sensor/renamed";
       use_dummy_data := false |}
  /\ exists df,
      load_data (C := Demo.collaborators)
        {| minutes := 2; thingspeak_url := Some "http://sensor/renamed";
           use_dummy_data := false |} = Ok df
      /\ df_len df = (180 + 2) * 60.
Proof.
  assert (Hfail : data_source_failure (C := Demo.collaborators)
            {| minutes := 2; thingspeak_url := Some "http://sensor/renamed";
               use_dummy_data := false |}).
  { eapply MismatchedFields with (key := "field1");
      [reflexivity|reflexivity|reflexivity|now left|].
    constructor; [|constructor]. eexists. split; reflexivity. }
  split; [exact Hfail|].
  destruct (proj2 (data_source_failure_falls_back (C := Demo.collaborators)
                     {| minutes := 2;
                        thingspeak_url := Some "http://sensor/renamed";
                        use_dummy_data := false |} [] Hfail)
                  ltac:(cbn; lia))
    as (df & Hload & Hlen & _).
  exists df. split; [exact Hload|exact Hlen].
Defined.

(** The same request with the flag set and unset. *)
Lemma use_dummy_data_is_ignored_witness :
  analyze_stress (C := Demo.collaborators)
    {| minutes := 5; thingspeak_url := None; use_dummy_data := true |} []
  = analyze_stress (C := Demo.collaborators)
      {| minutes := 5; thingspeak_url := None; use_dummy_data := false |} [].
Proof.
  exact (proj2 (use_dummy_data_is_ignored (C := Demo.collaborators)
                  {| minutes := 5; thingspeak_url := None;
                     use_dummy_data := true |}
                  {| minutes := 5; thingspeak_url := None;
                     use_dummy_data := false |} [] eq_refl eq_refl)).
Defined.

(* ================================================================= *)
(** ** Further properties of the program *)

(** *** Dictionaries and keys *)

Lemma dict_get_set_other {V} k k' (v : V) d :
  k <> k' -> dict_get k (dict_set k' v d) = dict_get k d.
Proof.
  intros Hne. assert (Hkk : String.eqb k k' = false) by now apply String.eqb_neq.
  induction d as [|[k0 v0] d IH]; cbn [dict_set dict_get].
  - now rewrite Hkk.
  - destruct (String.eqb k' k0) eqn:E; cbn [dict_get].
    + apply String.eqb_eq in E. subst k0. now rewrite Hkk.
    + destruct (String.eqb k k0); [reflexivity|exact IH].
Qed.

Lemma str_of_int_inj a b : str_of_int a = str_of_int b -> a = b.
Proof.
  unfold str_of_int. intros Heq.
  assert (Hnn : forall z, Z.to_int z <> Decimal.Pos Decimal.Nil
                          /\ Z.to_int z <> Decimal.Neg Decimal.Nil).
  { intros [|p|p]; cbn; split; try discriminate;
      intros Hp; injection Hp as Hp;
      exact (DecimalPos.Unsigned.to_uint_nonnil _ Hp). }
  apply DecimalZ.to_int_inj.
  pose proof (NilZero.isi _ (proj1 (Hnn a)) (proj2 (Hnn a))) as Ha.
  pose proof (NilZero.isi _ (proj1 (Hnn b)) (proj2 (Hnn b))) as Hb.
  rewrite Heq in Ha. congruence.
Qed.

Lemma imf_key_inj a b :
  "IMF_" ++ str_of_int a = "IMF_" ++ str_of_int b -> a = b.
Proof.
  intros Heq. apply str_of_int_inj. cbn [String.append] in Heq. congruence.
Qed.

Lemma range_succ (n : nat) :
  range (Z.of_nat (S n)) = (range (Z.of_nat n) ++ [Z.of_nat n])%list.
Proof.
  unfold range. rewrite !Nat2Z.id, seq_S, map_app. reflexivity.
Qed.

Lemma combine_snoc {A B} (a : list A) (b : list B) x y :
  List.length a = List.length b ->
  combine (a ++ [x]) (b ++ [y]) = (combine a b ++ [(x, y)])%list.
Proof.
  revert b. induction a as [|a0 a IH]; intros [|b0 b] Hlen; try discriminate.
  - reflexivity.
  - cbn [app combine]. f_equal. apply IH. now injection Hlen.
Qed.

Section InstantFrequency.

Context `{C : Collaborators}.

(** One more component adds one binding, under the next key. *)
Lemma compute_instant_freq_snoc imfs imf :
  compute_instant_freq (imfs ++ [imf])
  = dict_set ("IMF_" ++ str_of_int (len imfs + 1))
             (instantaneous_frequency imf) (compute_instant_freq imfs).
Proof.
  unfold compute_instant_freq, len.
  rewrite length_app. cbn [List.length]. rewrite Nat.add_1_r, range_succ.
  rewrite combine_snoc
    by (unfold range; now rewrite length_map, length_seq, Nat2Z.id).
  rewrite fold_left_app. reflexivity.
Qed.

Lemma instant_freq_present imfs :
  forall k imf,
    nth_error imfs k = Some imf ->
    dict_get ("IMF_" ++ str_of_int (Z.of_nat k + 1)) (compute_instant_freq imfs)
    = Some (instantaneous_frequency imf).
Proof.
  induction imfs as [|last imfs IH] using rev_ind; intros k imf Hk.
  - destruct k; discriminate.
  - rewrite compute_instant_freq_snoc.
    destruct (Nat.eq_dec k (List.length imfs)) as [->|Hne].
    + rewrite nth_error_app2, Nat.sub_diag in Hk by lia.
      injection Hk as <-. unfold len. apply dict_get_set.
    + assert (Hlt : (k < List.length imfs)%nat).
      { assert (Hsome : nth_error (imfs ++ [last]) k <> None) by congruence.
        apply nth_error_Some in Hsome. rewrite length_app in Hsome.
        cbn [List.length] in Hsome. lia. }
      rewrite nth_error_app1 in Hk by exact Hlt.
      rewrite dict_get_set_other; [now apply IH|].
      intros Heq. apply imf_key_inj in Heq. unfold len in Heq. lia.
Qed.

Lemma instant_freq_absent imfs z :
  z <= 0 \/ len imfs < z ->
  dict_get ("IMF_" ++ str_of_int z) (compute_instant_freq imfs) = None.
Proof.
  induction imfs as [|last imfs IH] using rev_ind; intros Hz; [reflexivity|].
  rewrite compute_instant_freq_snoc.
  unfold len in *. rewrite length_app in Hz. cbn [List.length] in Hz.
  rewrite dict_get_set_other; [apply IH; lia|].
  intros Heq. apply imf_key_inj in Heq. lia.
Qed.

End InstantFrequency.

Section Components.

Context `{C : Collaborators}.

(** [inst_freq['IMF_k']] for k = 1, 2, ...: the k-th component, or a
    [KeyError]. *)
Lemma imf_item imfs (k : nat) :
  dict_item ("IMF_" ++ str_of_int (Z.of_nat k + 1)) (compute_instant_freq imfs)
  = match nth_error imfs k with
    | Some imf => Ok (instantaneous_frequency imf)
    | None => Raise (KeyError ("IMF_" ++ str_of_int (Z.of_nat k + 1)))
    end.
Proof.
  unfold dict_item. destruct (nth_error imfs k) as [imf|] eqn:E.
  - now rewrite (instant_freq_present _ _ _ E).
  - rewrite instant_freq_absent; [reflexivity|].
    apply nth_error_None in E. unfold len. lia.
Qed.

(** X1: compute_instant_freq binds the keys IMF_1, ..., IMF_n of an
    n-component array, each to the instantaneous frequency of its
    component in order; subscripting with any other index raises
    KeyError. *)
Theorem instant_freq_keys (imfs : list (list float)) :
  (forall (k : nat) imf,
      nth_error imfs k = Some imf ->
      dict_item ("IMF_" ++ str_of_int (Z.of_nat k + 1))
                (compute_instant_freq imfs)
      = Ok (instantaneous_frequency imf))
  /\ (forall z : Z,
        z <= 0 \/ len imfs < z ->
        dict_item ("IMF_" ++ str_of_int z) (compute_instant_freq imfs)
        = Raise (KeyError ("IMF_" ++ str_of_int z))).
Proof.
  split.
  - intros k imf Hk. now rewrite imf_item, Hk.
  - intros z Hz. unfold dict_item. now rewrite instant_freq_absent.
Qed.

Lemma analyze_frame_unfold requested df files :
  analyze_frame requested df files
  = (let ibi_signal := map ibi_of_hr (HR df) in
     let ibi := perform_ceemdan_cached ibi_signal "ibi_imfs_cache.pkl"
                  random_seed files in
     let scl := perform_ceemdan_cached (EDA df) "scl_imfs_cache.pkl"
                  random_seed (snd ibi) in
     (i1 <- dict_item ("IMF_" ++ str_of_int (Z.of_nat 0 + 1))
                      (compute_instant_freq (fst ibi)) ;;
      i2 <- dict_item ("IMF_" ++ str_of_int (Z.of_nat 1 + 1))
                      (compute_instant_freq (fst ibi)) ;;
      i3 <- dict_item ("IMF_" ++ str_of_int (Z.of_nat 2 + 1))
                      (compute_instant_freq (fst ibi)) ;;
      s2 <- dict_item ("IMF_" ++ str_of_int (Z.of_nat 1 + 1))
                      (compute_instant_freq (fst scl)) ;;
      s3 <- dict_item ("IMF_" ++ str_of_int (Z.of_nat 2 + 1))
                      (compute_instant_freq (fst scl)) ;;
      Ok (run_analysis requested ibi_signal
            {| ibi_imf1 := i1; ibi_imf2 := i2; ibi_imf3 := i3;
               scl_imf2 := s2; scl_imf3 := s3 |}),
      snd scl)).
Proof.
  unfold analyze_frame. cbv zeta.
  destruct (perform_ceemdan_cached (map ibi_of_hr (HR df)) _ _ files)
    as [ibi_imfs files1]. cbn [fst snd].
  destruct (perform_ceemdan_cached (EDA df) _ _ files1) as [scl_imfs files2].
  reflexivity.
Qed.

(** In the handler the subscripts of lines 204-208 are [select_series]
    on the dicts of the two decompositions. *)
Lemma analyze_frame_series requested df files :
  fst (analyze_frame requested df files)
  = (let ibi_signal := map ibi_of_hr (HR df) in
     let ibi := perform_ceemdan_cached ibi_signal "ibi_imfs_cache.pkl"
                  random_seed files in
     let scl := perform_ceemdan_cached (EDA df) "scl_imfs_cache.pkl"
                  random_seed (snd ibi) in
     F <- select_series (compute_instant_freq (fst ibi))
                        (compute_instant_freq (fst scl)) ;;
     Ok (run_analysis requested ibi_signal F)).
Proof.
  rewrite analyze_frame_unfold. cbv zeta. cbn [fst]. unfold select_series.
  change "IMF_1" with ("IMF_" ++ str_of_int (Z.of_nat 0 + 1)).
  change "IMF_2" with ("IMF_" ++ str_of_int (Z.of_nat 1 + 1)).
  change "IMF_3" with ("IMF_" ++ str_of_int (Z.of_nat 2 + 1)).
  repeat (match goal with
          | |- context [dict_item ?k ?d] => destruct (dict_item k d)
          end; cbn [bind]; try reflexivity).
Qed.

(** X2: once both decompositions have returned their components, the
    subscripts of lines 204-208 need three components of each signal.
    With fewer than three IBI components they raise KeyError on the first
    missing key IMF_1, IMF_2 or IMF_3; with three IBI components and fewer
    than three EDA components, on IMF_2 or IMF_3 of the EDA; otherwise
    they select the first three IBI series and the second and third EDA
    series, the first EDA component being read nowhere. *)
Theorem components_needed (ibi_imfs scl_imfs : list (list float)) :
  (len ibi_imfs < 3 ->
   select_series (compute_instant_freq ibi_imfs)
                 (compute_instant_freq scl_imfs)
   = Raise (KeyError ("IMF_" ++ str_of_int (len ibi_imfs + 1))))
  /\ (3 <= len ibi_imfs -> len scl_imfs < 3 ->
      select_series (compute_instant_freq ibi_imfs)
                    (compute_instant_freq scl_imfs)
      = Raise (KeyError ("IMF_" ++ str_of_int (Z.max 2 (len scl_imfs + 1)))))
  /\ (3 <= len ibi_imfs -> 3 <= len scl_imfs ->
      select_series (compute_instant_freq ibi_imfs)
                    (compute_instant_freq scl_imfs)
      = Ok {| ibi_imf1 := instantaneous_frequency (nth 0 ibi_imfs []);
              ibi_imf2 := instantaneous_frequency (nth 1 ibi_imfs []);
              ibi_imf3 := instantaneous_frequency (nth 2 ibi_imfs []);
              scl_imf2 := instantaneous_frequency (nth 1 scl_imfs []);
              scl_imf3 := instantaneous_frequency (nth 2 scl_imfs []) |}).
Proof.
  unfold select_series.
  change "IMF_1" with ("IMF_" ++ str_of_int (Z.of_nat 0 + 1)).
  change "IMF_2" with ("IMF_" ++ str_of_int (Z.of_nat 1 + 1)).
  change "IMF_3" with ("IMF_" ++ str_of_int (Z.of_nat 2 + 1)).
  rewrite !imf_item. unfold len.
  destruct ibi_imfs as [|i1 [|i2 [|i3 ibi]]];
    cbn [nth_error bind List.length nth];
    (split; [|split]); intros Hlen; try lia; try reflexivity;
    intros Hs; destruct scl_imfs as [|s1 [|s2 [|s3 scl]]];
    cbn [nth_error bind List.length nth] in *; try lia; reflexivity.
Qed.

End Components.

(** *** More on the cache *)

Section CacheFiles.

Context `{C : Collaborators}.

Lemma perform_hit signal cache_file seed0 files imfs :
  dict_get cache_file files = Some (Pickled (hash_bytes signal) imfs) ->
  perform_ceemdan_cached signal cache_file seed0 files = (imfs, files).
Proof.
  intros Hget. unfold perform_ceemdan_cached, cache_lookup.
  now rewrite Hget, Z.eqb_refl.
Qed.

Lemma perform_other_file signal cache_file seed0 files other :
  other <> cache_file ->
  dict_get other (snd (perform_ceemdan_cached signal cache_file seed0 files))
  = dict_get other files.
Proof.
  intros Hne. unfold perform_ceemdan_cached.
  destruct (cache_lookup _ cache_file files); cbn [snd]; [reflexivity|].
  now apply dict_get_set_other.
Qed.

(** X3: a cache file that is missing, does not unpickle, or stores another
    hash is no obstacle: the call computes the rounded decomposition,
    returns it, and overwrites the file with the hash of this signal and
    these components. *)
Theorem unusable_cache_is_overwritten signal cache_file seed0 files :
  dict_get cache_file files = None
  \/ dict_get cache_file files = Some Corrupt
  \/ (exists h imfs, dict_get cache_file files = Some (Pickled h imfs)
                     /\ h <> hash_bytes signal) ->
  perform_ceemdan_cached signal cache_file seed0 files
  = (decompose signal seed0,
     dict_set cache_file
       (Pickled (hash_bytes signal) (decompose signal seed0)) files)
  /\ dict_get cache_file
       (snd (perform_ceemdan_cached signal cache_file seed0 files))
     = Some (Pickled (hash_bytes signal) (decompose signal seed0)).
Proof.
  intros Hfile.
  assert (Hmiss : cache_lookup (hash_bytes signal) cache_file files = None).
  { unfold cache_lookup.
    destruct Hfile as [-> | [-> | (h & imfs & -> & Hh)]]; try reflexivity.
    destruct (Z.eqb_spec h (hash_bytes signal)); [contradiction|reflexivity]. }
  assert (Hcall : perform_ceemdan_cached signal cache_file seed0 files
                  = (decompose signal seed0,
                     dict_set cache_file
                       (Pickled (hash_bytes signal) (decompose signal seed0))
                       files))
    by (unfold perform_ceemdan_cached; now rewrite Hmiss).
  split; [exact Hcall|]. rewrite Hcall. apply dict_get_set.
Qed.

(** X4: a file that stores the hash of the signal is trusted as it is:
    the call returns the stored components, whatever they are and whatever
    the seed, computes nothing and writes nothing.  So the seed of a later
    call has no effect: it gets the components of the call that filled the
    cache. *)
Theorem cache_hit_ignores_seed signal cache_file files :
  (forall imfs seed0,
      dict_get cache_file files = Some (Pickled (hash_bytes signal) imfs) ->
      perform_ceemdan_cached signal cache_file seed0 files = (imfs, files))
  /\ (forall seed1 seed2,
        perform_ceemdan_cached signal cache_file seed2
          (snd (perform_ceemdan_cached signal cache_file seed1 files))
        = perform_ceemdan_cached signal cache_file seed1 files).
Proof.
  split.
  - intros imfs seed0. apply perform_hit.
  - intros seed1 seed2.
    rewrite (perform_hit _ _ seed2 _ _ (cached_after_call _ _ seed1 files)).
    now destruct (perform_ceemdan_cached signal cache_file seed1 files).
Qed.

(** X5: a call reads and writes its own cache file only: every other file
    is after the call what it was before, so the IBI and the EDA slot do
    not disturb each other. *)
Theorem cache_slots_are_independent signal cache_file seed0 files other :
  other <> cache_file ->
  dict_get other (snd (perform_ceemdan_cached signal cache_file seed0 files))
  = dict_get other files
  /\ forall signal' seed1,
      fst (perform_ceemdan_cached signal' other seed1
             (snd (perform_ceemdan_cached signal cache_file seed0 files)))
      = fst (perform_ceemdan_cached signal' other seed1 files).
Proof.
  intros Hne.
  pose proof (perform_other_file signal cache_file seed0 files other Hne) as H.
  split; [exact H|]. intros signal' seed1.
  unfold perform_ceemdan_cached at 1 3. unfold cache_lookup. rewrite H.
  destruct (dict_get other files) as [[h imfs|]|]; try reflexivity.
  destruct (Z.eqb h (hash_bytes signal')); reflexivity.
Qed.

Lemma analyze_frame_warm requested df files :
  analyze_frame requested df (snd (analyze_frame requested df files))
  = analyze_frame requested df files.
Proof.
  rewrite !analyze_frame_unfold. cbv zeta. cbn [snd].
  set (ibi_signal := map ibi_of_hr (HR df)).
  set (ibi := perform_ceemdan_cached ibi_signal "ibi_imfs_cache.pkl"
                random_seed files).
  set (scl := perform_ceemdan_cached (EDA df) "scl_imfs_cache.pkl"
                random_seed (snd ibi)).
  assert (Hibi : perform_ceemdan_cached ibi_signal "ibi_imfs_cache.pkl"
                   random_seed (snd scl) = (fst ibi, snd scl)).
  { apply perform_hit. unfold scl.
    rewrite perform_other_file by discriminate. apply cached_after_call. }
  rewrite Hibi. cbn [fst snd].
  assert (Hscl : perform_ceemdan_cached (EDA df) "scl_imfs_cache.pkl"
                   random_seed (snd scl) = (fst scl, snd scl))
    by (apply perform_hit, cached_after_call).
  rewrite Hscl. reflexivity.
Qed.

(** X6: repeating a request on the files it left behind gives the same
    response and leaves the files as they are: both decompositions are
    served from the cache the first run filled. *)
Theorem warm_run_is_idempotent request files :
  analyze_stress request (snd (analyze_stress request files))
  = analyze_stress request files.
Proof.
  unfold analyze_stress. destruct (load_data request) as [df|e];
    [|reflexivity].
  pose proof (analyze_frame_warm (minutes request) df files) as Hwarm.
  destruct (analyze_frame (minutes request) df files) as [r files1].
  cbn [snd] in *. rewrite Hwarm. reflexivity.
Qed.

End CacheFiles.

(** *** More on loading *)

Lemma prefix_app sub s : String.prefix sub (sub ++ s) = true.
Proof.
  induction sub as [|c sub IH]; cbn [String.append String.prefix].
  - now destruct s.
  - destruct (ascii_dec c c) as [_|Hne]; [exact IH|now destruct Hne].
Qed.

Lemma contains_app sub pre post : contains sub (pre ++ sub ++ post) = true.
Proof.
  induction pre as [|c pre IH].
  - cbn [String.append]. destruct (sub ++ post) eqn:E; cbn [contains];
      rewrite <- E, prefix_app; reflexivity.
  - cbn [String.append contains]. rewrite IH. apply orb_true_r.
Qed.

Section Sources.

Context `{C : Collaborators}.

Lemma field_values_carried key dflt feeds xs :
  Forall2 (carries key) feeds xs -> field_values key dflt feeds = Ok xs.
Proof.
  induction 1 as [|feed x feeds xs (members & v & -> & Hget & Htrue & Hfloat) _ IH];
    [reflexivity|].
  cbn [field_values]. unfold get_truthy, get_default.
  rewrite Hget, Htrue, Hfloat. cbn [bind]. rewrite IH. reflexivity.
Qed.

Lemma field_values_unconvertible key dflt feeds :
  Exists (unconvertible key) feeds ->
  exists e, field_values key dflt feeds = Raise e.
Proof.
  induction 1 as [feed feeds (members & v & e & -> & Hget & Htrue & Hfloat)
                 | feed feeds _ (e & IH)].
  - cbn [field_values]. unfold get_truthy, get_default.
    rewrite Hget, Htrue, Hfloat. now exists e.
  - cbn [field_values]. rewrite IH.
    destruct feed as [| | | | |members]; try (eexists; reflexivity).
    destruct (get_truthy key members); [|now exists e].
    destruct (py_float _); cbn [bind]; eexists; reflexivity.
Qed.

Lemma fetched_columns url d :
  fetch_thingspeak_data url = Some d ->
  List.length (HR d) = List.length (EDA d).
Proof.
  unfold fetch_thingspeak_data, fetch_try.
  destruct (_ || _); [discriminate|].
  destruct (http_get url) as [data|]; [|discriminate]. cbn [bind].
  unfold parse_payload.
  destruct data as [| | | | |members]; try discriminate.
  destruct (dict_get "feeds" members) as [feeds_v|]; [|discriminate].
  destruct (py_iter feeds_v) as [feeds|]; [|discriminate]. cbn [bind].
  destruct (field_values "field1" _ feeds) as [hr|]; [|discriminate].
  cbn [bind].
  destruct (field_values "field2" _ feeds) as [eda|]; [|discriminate].
  cbn [bind]. intros Hd. injection Hd as <-. cbn [HR EDA].
  rewrite !length_firstn. lia.
Qed.

(** X7: whatever the source answers, a frame the pipeline gets has two
    columns of one length and at least one row: a fetched frame is cut to
    the shorter of its columns, and an empty one is replaced by the
    synthetic series. *)
Theorem loaded_frame_is_rectangular request df :
  load_data request = Ok df ->
  List.length (HR df) = List.length (EDA df) /\ 0 < df_len df.
Proof.
  unfold load_data.
  assert (Hdummy : generate_dummy_data (minutes request) = Ok df ->
                   List.length (HR df) = List.length (EDA df) /\ 0 < df_len df).
  { intros Hd.
    assert (Hm : 0 <= minutes request).
    { unfold generate_dummy_data in Hd.
      destruct (_ <? 0); [discriminate|].
      destruct (_ =? 0); [discriminate|].
      destruct (minutes request <? 0) eqn:E; [discriminate|].
      now apply Z.ltb_ge in E. }
    destruct (generate_dummy_data_ok _ Hm) as (df' & Hgen & Hhr & Heda).
    rewrite Hgen in Hd. injection Hd as ->.
    unfold df_len, len in *. split; lia. }
  destruct (has_locator request) as [url|]; [|exact Hdummy].
  destruct (fetch_thingspeak_data url) as [d|] eqn:Hfetch; [|exact Hdummy].
  destruct (df_len d =? 0) eqn:E; [exact Hdummy|].
  intros Hd. injection Hd as <-. split; [now apply (fetched_columns url)|].
  apply Z.eqb_neq in E. unfold df_len, len in *. lia.
Qed.

Lemma generate_dummy_data_negative m :
  m < 0 -> exists msg, generate_dummy_data m = Raise (ValueError msg).
Proof.
  intros Hm. unfold generate_dummy_data.
  destruct (_ <? 0); [eexists; reflexivity|].
  destruct (_ =? 0); [eexists; reflexivity|].
  apply Z.ltb_lt in Hm. rewrite Hm. eexists; reflexivity.
Qed.

(** X8: a request for a negative number of minutes that gets no reading
    from the source (no locator, a failed fetch, an empty frame) fails:
    the synthetic generator raises a ValueError, the handler answers 500
    and touches no cache file.  With readings from the source the same
    request loads them and raises nothing. *)
Theorem negative_minutes_need_readings request files :
  minutes request < 0 ->
  (match has_locator request with
   | Some url =>
       match fetch_thingspeak_data url with
       | Some d => df_len d = 0
       | None => True
       end
   | None => True
   end ->
   exists msg,
     load_data request = Raise (ValueError msg)
     /\ analyze_stress request files = (inl (Http500 (ValueError msg)), files))
  /\ (forall url d,
        has_locator request = Some url ->
        fetch_thingspeak_data url = Some d ->
        df_len d <> 0 ->
        load_data request = Ok d).
Proof.
  intros Hneg. split.
  - intros Hnone.
    destruct (generate_dummy_data_negative _ Hneg) as (msg & Hmsg).
    exists msg. unfold analyze_stress.
    rewrite (load_data_fallback _ Hnone), Hmsg. split; reflexivity.
  - intros url d Hloc Hfetch Hlen. unfold load_data.
    rewrite Hloc, Hfetch. apply Z.eqb_neq in Hlen. now rewrite Hlen.
Qed.

(** X9: from a remote source whose payload is a dict with a list of feeds,
    each feed carrying a convertible field1 and field2, the fetch returns
    one row per feed, in the order of the feeds. *)
Theorem well_formed_feeds_are_loaded url members feeds hr eda :
  remote url ->
  http_get url = Ok (JObj members) ->
  dict_get "feeds" members = Some (JArr feeds) ->
  Forall2 (carries "field1") feeds hr ->
  Forall2 (carries "field2") feeds eda ->
  fetch_thingspeak_data url = Some {| HR := hr; EDA := eda |}
  /\ List.length hr = List.length feeds
  /\ List.length eda = List.length feeds.
Proof.
  intros Hremote Hget Hfeeds Hhr Heda.
  pose proof (Forall2_length Hhr) as Lhr.
  pose proof (Forall2_length Heda) as Leda.
  unfold fetch_thingspeak_data, fetch_try. unfold remote in Hremote.
  rewrite Hremote, Hget. cbn [bind parse_payload]. rewrite Hfeeds.
  cbn [py_iter bind].
  rewrite (field_values_carried _ _ _ _ Hhr), (field_values_carried _ _ _ _ Heda).
  cbn [bind]. rewrite <- Lhr, <- Leda, Nat.min_id, !firstn_all2 by lia.
  repeat split.
Qed.

(** X10: a locator that names the application's own dummy endpoint or
    localhost:8000 is never fetched: whatever the source would answer, the
    fetch returns nothing and the handler loads the synthetic series. *)
Theorem own_endpoint_is_never_fetched request pre post :
  thingspeak_url request = Some (pre ++ "dummy-thingspeak" ++ post)
  \/ thingspeak_url request = Some (pre ++ "localhost:8000" ++ post) ->
  (forall url, has_locator request = Some url ->
               fetch_thingspeak_data url = None)
  /\ load_data request = generate_dummy_data (minutes request).
Proof.
  intros Hurl.
  assert (Hfetch : forall url, has_locator request = Some url ->
                               fetch_thingspeak_data url = None).
  { intros url Hloc. unfold has_locator in Hloc.
    unfold fetch_thingspeak_data, fetch_try.
    destruct Hurl as [Hu | Hu]; rewrite Hu in Hloc;
      destruct (String.eqb _ ""); try discriminate;
      apply (f_equal (fun o => match o with Some u => u | None => "" end))
        in Hloc; cbv beta iota in Hloc; subst url; rewrite contains_app;
      [|rewrite orb_true_r]; reflexivity. }
  split; [exact Hfetch|].
  apply load_data_fallback.
  destruct (has_locator request) as [url|] eqn:Hloc; [|exact I].
  now rewrite (Hfetch url eq_refl).
Qed.

(** X11: one reading that [float] rejects discards the whole fetch: if any
    feed of the list carries a true field1 or field2 that does not convert,
    the fetch returns nothing, however many good readings the other feeds
    hold. *)
Theorem one_bad_reading_discards_the_fetch url members feeds key :
  http_get url = Ok (JObj members) ->
  dict_get "feeds" members = Some (JArr feeds) ->
  key = "field1" \/ key = "field2" ->
  Exists (unconvertible key) feeds ->
  fetch_thingspeak_data url = None.
Proof.
  intros Hget Hfeeds Hkey Hbad.
  unfold fetch_thingspeak_data, fetch_try.
  destruct (_ || _); [reflexivity|].
  rewrite Hget. cbn [bind parse_payload]. rewrite Hfeeds. cbn [py_iter bind].
  destruct Hkey as [-> | ->].
  - destruct (field_values_unconvertible "field1" (JNum (of_Z 70)) _ Hbad)
      as (e & ->). reflexivity.
  - destruct (field_values_unconvertible "field2" (JNum (of_Z 5)) _ Hbad)
      as (e & He).
    destruct (field_values "field1" _ feeds); cbn [bind]; [|reflexivity].
    rewrite He. reflexivity.
Qed.

End Sources.

(** *** More on the records of a run *)

Section Records.

Context `{C : Collaborators}.

(** What holds of every record the body builds on a window that ends
    within the signal holds of every record the loop returns. *)
Lemma segment_loop_Forall_in (P : MinuteResult -> Prop) F L ms :
  (forall m g,
      In m ms ->
      baseline_duration + m * segment_length + segment_length <= L ->
      P (fst (analyze_segment F m
                (baseline_duration + m * segment_length)
                (baseline_duration + m * segment_length + segment_length) g))) ->
  forall g acc, Forall P acc -> Forall P (segment_loop F L ms g acc).
Proof.
  induction ms as [|m ms IH]; intros body g acc Hacc; cbn [segment_loop].
  - exact Hacc.
  - destruct (_ >? L) eqn:E; [exact Hacc|].
    assert (Hfit : baseline_duration + m * segment_length + segment_length <= L)
      by (destruct (Z.gtb_spec (baseline_duration + m * segment_length
                                + segment_length) L); [discriminate|lia]).
    pose proof (body m g (or_introl eq_refl) Hfit) as Hr.
    destruct (analyze_segment F m _ _ g) as [r g'].
    apply IH.
    + intros m' g0 Hin. apply body. now right.
    + apply Forall_app. split; [exact Hacc|]. constructor; [exact Hr|constructor].
Qed.

Lemma run_windows requested ibi_signal F :
  Forall (fun r =>
            1 <= minute r <= requested
            /\ baseline_duration <= start_of r
            /\ stop_of r <= len ibi_signal
            /\ exists g,
                r = fst (analyze_segment F (minute r - 1) (start_of r)
                           (stop_of r) g))
         (results (run_analysis requested ibi_signal F)).
Proof.
  rewrite run_analysis_results.
  apply segment_loop_Forall_in; [|constructor].
  intros m g Hin Hfit.
  pose proof (proj1 (Forall_forall _ _) (range_bounds _) m Hin) as Hm.
  cbn beta in Hm. unfold analysis_minutes in Hm.
  unfold stop_of. rewrite start_of_segment, analyze_segment_minute.
  replace (m + 1 - 1) with m by lia.
  repeat split; try lia.
  - unfold baseline_duration, segment_length. lia.
  - now exists g.
Qed.

(** X12: every record of a run is the analysis of the window of 60
    samples that its minute names, [180 + 60 (minute - 1), 180 + 60 minute):
    the window starts at or after the end of the baseline, ends within the
    signal, and the minute is between 1 and the requested count. *)
Theorem records_are_windows_past_the_baseline requested ibi_signal F :
  Forall (fun r =>
            1 <= minute r <= requested
            /\ start_of r = 180 + 60 * (minute r - 1)
            /\ stop_of r = start_of r + 60
            /\ 180 <= start_of r
            /\ stop_of r <= len ibi_signal
            /\ exists g,
                r = fst (analyze_segment F (minute r - 1) (start_of r)
                           (stop_of r) g))
         (results (run_analysis requested ibi_signal F)).
Proof.
  eapply Forall_impl; [|apply run_windows].
  intros r (Hmin & Hstart & Hstop & Hg).
  repeat split; try assumption; try lia;
    unfold stop_of, start_of, baseline_duration, segment_length; lia.
Qed.

Lemma slice_length {A} (a : list A) start stop :
  0 <= start <= stop -> stop <= len a ->
  len (slice start stop a) = stop - start.
Proof.
  intros Hs Hl. unfold slice, len in *.
  rewrite length_firstn, length_skipn. lia.
Qed.

(** X13: a series as long as the signal gives every record a full window:
    the slice the record is computed from holds exactly 60 samples, none
    padded and none missing. *)
Theorem windows_are_full requested ibi_signal F (a : list float) :
  len a = len ibi_signal ->
  Forall (fun r => len (slice (start_of r) (stop_of r) a) = 60)
         (results (run_analysis requested ibi_signal F)).
Proof.
  intros Hlen. eapply Forall_impl; [|apply run_windows].
  intros r (Hmin & Hstart & Hstop & _).
  rewrite slice_length; unfold stop_of, start_of, baseline_duration,
    segment_length in *; lia.
Qed.

(** X14: no record reports a not-a-number ibi_lf_hf_ratio: the field is
    the ratio of the record's window, or 0.0 when that ratio is
    not-a-number; scl_lf_power is the EDA band power of the window as it
    is, not-a-number included. *)
Theorem reported_ratio_is_a_number requested ibi_signal F :
  Forall (fun r =>
            isnan (ibi_lf_hf_ratio r) = false
            /\ ibi_lf_hf_ratio r
               = (if isnan (ibi_ratio F (start_of r) (stop_of r)) then of_Z 0
                  else ibi_ratio F (start_of r) (stop_of r))
            /\ scl_lf_power r = scl_lf F (start_of r) (stop_of r))
         (results (run_analysis requested ibi_signal F)).
Proof.
  eapply Forall_impl; [|apply run_windows].
  intros r (_ & _ & _ & g & Hr).
  generalize dependent (start_of r). generalize dependent (stop_of r).
  intros stop start Hr. rewrite Hr. unfold analyze_segment.
  destruct (classify _ _ g) as [[[stress num] oxygen] g'].
  cbn [fst ibi_lf_hf_ratio scl_lf_power].
  destruct (ibi_ratio F start stop); repeat split.
Qed.

Lemma stressed_count_bounds rs : 0 <= stressed_count rs <= len rs.
Proof.
  unfold len. induction rs as [|r rs IH]; cbn [stressed_count List.length];
    [lia|].
  destruct (0 <? numeric_label r); lia.
Qed.

(** X15: in every summary the stressed minutes are between 0 and the total
    minutes and there is one oxygen level per record; the summary of a run
    has at most the requested number of minutes (none for a request of
    zero or fewer), and the minutes it counts fit in the signal after the
    baseline. *)
Theorem summary_counts_are_consistent :
  (forall rs : list MinuteResult,
      0 <= stressed_minutes (aggregate rs) <= total_minutes (aggregate rs)
      /\ len (oxygen_levels (aggregate rs)) = total_minutes (aggregate rs))
  /\ (forall requested ibi_signal F,
        total_minutes (run_analysis requested ibi_signal F)
        <= Z.max 0 requested
        /\ (0 < total_minutes (run_analysis requested ibi_signal F) ->
            180 + 60 * total_minutes (run_analysis requested ibi_signal F)
            <= len ibi_signal)).
Proof.
  split.
  - intros rs. unfold aggregate.
    cbn [stressed_minutes total_minutes oxygen_levels].
    rewrite sum_of_ones_counts. split; [apply stressed_count_bounds|].
    unfold len. now rewrite length_map.
  - intros requested ibi_signal F.
    change (total_minutes (run_analysis requested ibi_signal F))
      with (len (results (run_analysis requested ibi_signal F))).
    rewrite run_analysis_length. unfold analysis_minutes,
      baseline_duration, segment_length. change (180 / 60) with 3.
    pose proof (Z.mul_div_le (len ibi_signal) 60 ltac:(lia)).
    split; lia.
Qed.

End Records.

(** *** More on band power *)

Section BandPowerSign.

Context `{C : Collaborators}.

Import Exact ExactFacts.

Lemma empty_band_has_no_bin low_freq high_freq x :
  empty_band low_freq high_freq -> in_band low_freq high_freq x = false.
Proof.
  unfold in_band. intros [Hlo | [Hhi | Hlt]].
  - destruct low_freq; [discriminate|]. now destruct x.
  - destruct high_freq; [discriminate|]. destruct x; [|reflexivity].
    apply andb_false_r.
  - destruct low_freq as [a|], high_freq as [b|]; try discriminate.
    destruct x as [q|]; [|reflexivity].
    apply lt_spec in Hlt.
    destruct (Float.ge (Fin q) (Fin a)) eqn:Ege; [|reflexivity].
    destruct (Float.le (Fin q) (Fin b)) eqn:Ele; [|reflexivity].
    apply ge_spec in Ege. apply le_spec in Ele. exfalso.
    apply (Qlt_irrefl a). apply Qle_lt_trans with b; [|exact Hlt].
    now apply Qle_trans with q.
Qed.

Lemma empty_band_power segment fs low_freq high_freq :
  empty_band low_freq high_freq ->
  calculate_power segment fs low_freq high_freq = of_Z 0.
Proof.
  intros Hempty. unfold calculate_power.
  destruct (welch segment fs) as [f P]. unfold band_mask.
  assert (Hnone : Forall (fun x => in_band low_freq high_freq x = false) f)
    by (apply Forall_forall; intros x _; now apply empty_band_has_no_bin).
  now rewrite !(select_none _ _ _ Hnone).
Qed.

Lemma band_power_nonneg segment fs low_freq high_freq :
  welch_ok segment fs ->
  nonneg (calculate_power segment fs low_freq high_freq).
Proof.
  intros (Hlen & Hinc & Hpos).
  destruct low_freq as [a|];
    [|rewrite empty_band_power by (now left); apply Qle_refl].
  destruct high_freq as [b|];
    [|rewrite empty_band_power by (right; now left); apply Qle_refl].
  destruct (points_of_arrays _ _ Hlen Hinc Hpos) as (pts & Hf & HP & Hasc).
  assert (Hw : welch segment fs
               = (map (fun p => Fin (fst p)) pts,
                  map (fun p => Fin (snd p)) pts))
    by (rewrite <- Hf, <- HP; now destruct (welch segment fs)).
  destruct (calculate_power_points pts segment fs a b Hw) as (s & -> & Hs).
  cbn [nonneg]. rewrite Hs. apply area_nonneg. now apply ascending_filter.
Qed.

(** X16: a band power is never negative and never not-a-number when the
    bins of the segment increase and its density is non-negative,
    whatever the band; and a band with a not-a-number edge or with its
    upper edge below its lower edge has power 0 on every segment. *)
Theorem band_power_is_nonnegative :
  (forall segment fs low_freq high_freq,
      empty_band low_freq high_freq ->
      calculate_power segment fs low_freq high_freq = of_Z 0)
  /\ (forall segment fs low_freq high_freq,
        welch_ok segment fs ->
        nonneg (calculate_power segment fs low_freq high_freq)).
Proof.
  split.
  - intros. now apply empty_band_power.
  - intros. now apply band_power_nonneg.
Qed.

Lemma gt_zero_nonneg x y :
  Float.eqb x (of_Z 0) = true -> nonneg y -> Float.gt x y = false.
Proof.
  destruct x as [q|], y as [b|]; try reflexivity; try contradiction.
  unfold Float.eqb, Float.gt, Float.cmp, of_Z. cbn [nonneg]. intros Hq Hb.
  destruct (Qcompare_spec q (inject_Z 0)) as [E|E|E]; try discriminate.
  destruct (Qcompare_spec q b) as [E'|E'|E']; try reflexivity.
  exfalso. rewrite E in E'. change (inject_Z 0) with 0%Q in E'.
  apply (Qlt_irrefl b). now apply Qlt_le_trans with 0%Q.
Qed.

Lemma ratio_nonneg lf hf :
  nonneg lf -> nonneg hf ->
  lf_hf_ratio lf hf = NaN \/ nonneg (lf_hf_ratio lf hf).
Proof.
  destruct lf as [l|], hf as [h|]; try contradiction. cbn [nonneg].
  intros Hl Hh. unfold lf_hf_ratio, Float.ne, Float.eqb, Float.cmp, of_Z.
  destruct (Qcompare_spec h (inject_Z 0)) as [E|E|E]; cbn [negb].
  - now left.
  - exfalso. change (inject_Z 0) with 0%Q in E.
    apply (Qlt_irrefl h). now apply Qlt_le_trans with 0%Q.
  - right. cbn [Float.div]. change (inject_Z 0) with 0%Q in E.
    destruct (Qeq_bool h 0) eqn:Eb; [apply Qeq_bool_iff in Eb; rewrite Eb in E;
                                     now apply Qlt_irrefl in E|].
    cbn [nonneg]. apply Qle_shift_div_l; [exact E|].
    now rewrite Qmult_0_l.
Qed.

Lemma ratio_of_zero lf hf :
  Float.eqb lf (of_Z 0) = true ->
  lf_hf_ratio lf hf = NaN \/ Float.eqb (lf_hf_ratio lf hf) (of_Z 0) = true.
Proof.
  destruct lf as [l|]; [|discriminate]. intros Hl.
  unfold lf_hf_ratio. destruct (Float.ne hf (of_Z 0)); [|now left].
  destruct hf as [h|]; [|now left]. cbn [Float.div].
  destruct (Qeq_bool h 0); [now left|right].
  unfold Float.eqb, Float.cmp, of_Z in *.
  destruct (Qcompare_spec l (inject_Z 0)) as [E|E|E]; try discriminate.
  destruct (Qcompare_spec (l / h) (inject_Z 0)) as [E'|E'|E'];
    try reflexivity; exfalso; rewrite E in E';
    change (inject_Z 0) with 0%Q in E'; unfold Qdiv in E';
    rewrite Qmult_0_l in E'; now apply Qlt_irrefl in E'.
Qed.

(** X17: a window with no low-frequency power, neither in the IBI series
    nor in the EDA series, is No Stress with numeric label 0 in every run
    whose three baseline segments have increasing bins and a non-negative
    density: neither flag can be set against a baseline that is not
    negative. *)
Theorem silent_window_is_no_stress F m start stop g :
  Forall (fun segment => welch_ok segment fs) (baseline_segments F) ->
  Float.eqb (ibi_lf F start stop) (of_Z 0) = true ->
  Float.eqb (scl_lf F start stop) (of_Z 0) = true ->
  ibi_flag F start stop = false
  /\ scl_flag F start stop = false
  /\ stress_level (fst (analyze_segment F m start stop g)) = "No Stress"
  /\ numeric_label (fst (analyze_segment F m start stop g)) = 0.
Proof.
  intros Hbase Hibi Hscl.
  inversion Hbase as [|? ? Hlf Hbase1]; subst.
  inversion Hbase1 as [|? ? Hhf Hbase2]; subst.
  inversion Hbase2 as [|? ? Hsc _]; subst.
  assert (Hi : ibi_flag F start stop = false).
  { unfold ibi_flag, ibi_ratio, ibi_baseline.
    destruct (ratio_of_zero _ (ibi_hf F start stop) Hibi) as [-> | Hz];
      [reflexivity|].
    destruct (ratio_nonneg (ibi_lf F 0 baseline_duration)
                (ibi_hf F 0 baseline_duration)) as [-> | Hn].
    - now apply band_power_nonneg.
    - now apply band_power_nonneg.
    - apply gt_nan_r.
    - now apply gt_zero_nonneg. }
  assert (Hs : scl_flag F start stop = false).
  { unfold scl_flag, scl_baseline. apply gt_zero_nonneg; [exact Hscl|].
    now apply band_power_nonneg. }
  split; [exact Hi|]. split; [exact Hs|].
  pose proof (analyze_segment_label F m start stop g) as Hl. cbv zeta in Hl.
  rewrite Hi, Hs in Hl. cbn [stress_label] in Hl.
  revert Hl. generalize (fst (analyze_segment F m start stop g)).
  intros r Hl. now injection Hl.
Qed.

End BandPowerSign.

(** *** The further properties on the concrete collaborators *)

(** Two components: IMF_2 is the second, IMF_3 is missing. *)
Lemma instant_freq_keys_witness :
  dict_item "IMF_2"
    (compute_instant_freq (C := Demo.collaborators)
       [[of_Z 1; of_Z 2]; [of_Z 3; of_Z 4]])
  = Ok [of_Z 3; of_Z 4]
  /\ dict_item "IMF_3"
       (compute_instant_freq (C := Demo.collaborators)
          [[of_Z 1; of_Z 2]; [of_Z 3; of_Z 4]])
     = Raise (KeyError "IMF_3").
Proof.
  split.
  - exact (proj1 (instant_freq_keys (C := Demo.collaborators)
                    [[of_Z 1; of_Z 2]; [of_Z 3; of_Z 4]])
                 1%nat [of_Z 3; of_Z 4] eq_refl).
  - refine (proj2 (instant_freq_keys (C := Demo.collaborators)
                     [[of_Z 1; of_Z 2]; [of_Z 3; of_Z 4]]) 3 _).
    right. reflexivity.
Defined.

(** Two IBI components: IMF_3 is missing. *)
Lemma components_needed_witness :
  select_series
    (compute_instant_freq (C := Demo.collaborators)
       [[of_Z 1; of_Z 2]; [of_Z 3; of_Z 4]])
    (compute_instant_freq (C := Demo.collaborators)
       [[of_Z 1]; [of_Z 2]; [of_Z 3]])
  = Raise (KeyError "IMF_3").
Proof.
  refine (proj1 (components_needed (C := Demo.collaborators)
                   [[of_Z 1; of_Z 2]; [of_Z 3; of_Z 4]]
                   [[of_Z 1]; [of_Z 2]; [of_Z 3]]) _).
  reflexivity.
Defined.

(** A file that does not unpickle is overwritten. *)
Lemma unusable_cache_is_overwritten_witness :
  dict_get "ibi_imfs_cache.pkl"
    (snd (perform_ceemdan_cached (C := Demo.collaborators) (Demo.ramp 5)
            "ibi_imfs_cache.pkl" 42 [("ibi_imfs_cache.pkl", Corrupt)]))
  = Some (Pickled (hash_bytes (Collaborators := Demo.collaborators)
                     (Demo.ramp 5))
            (decompose (C := Demo.collaborators) (Demo.ramp 5) 42)).
Proof.
  exact (proj2 (unusable_cache_is_overwritten (C := Demo.collaborators)
                  (Demo.ramp 5) "ibi_imfs_cache.pkl" 42
                  [("ibi_imfs_cache.pkl", Corrupt)]
                  (or_intror (or_introl eq_refl)))).
Defined.

(** A file with the hash of the signal and components of no decomposition
    is served as it is. *)
Lemma cache_hit_ignores_seed_witness :
  perform_ceemdan_cached (C := Demo.collaborators) (Demo.ramp 5)
    "ibi_imfs_cache.pkl" 7
    [("ibi_imfs_cache.pkl", Pickled 5 [[of_Z 9]])]
  = ([[of_Z 9]], [("ibi_imfs_cache.pkl", Pickled 5 [[of_Z 9]])]).
Proof.
  exact (proj1 (cache_hit_ignores_seed (C := Demo.collaborators) (Demo.ramp 5)
                  "ibi_imfs_cache.pkl"
                  [("ibi_imfs_cache.pkl", Pickled 5 [[of_Z 9]])])
               [[of_Z 9]] 7 eq_refl).
Defined.

(** Filling the IBI slot leaves the EDA slot as it was. *)
Lemma cache_slots_are_independent_witness :
  dict_get "scl_imfs_cache.pkl"
    (snd (perform_ceemdan_cached (C := Demo.collaborators) (Demo.ramp 5)
            "ibi_imfs_cache.pkl" 42
            [("scl_imfs_cache.pkl", Pickled 3 [[of_Z 9]])]))
  = Some (Pickled 3 [[of_Z 9]]).
Proof.
  exact (proj1 (cache_slots_are_independent (C := Demo.collaborators)
                  (Demo.ramp 5) "ibi_imfs_cache.pkl" 42
                  [("scl_imfs_cache.pkl", Pickled 3 [[of_Z 9]])]
                  "scl_imfs_cache.pkl" ltac:(discriminate))).
Defined.

(** Three readings fetched: three rows in each column. *)
Lemma loaded_frame_is_rectangular_witness :
  load_data (C := Demo.collaborators)
    {| minutes := 1; thingspeak_url := Some "http://sensor/feeds";
       use_dummy_data := true |}
  = Ok {| HR := [of_Z 60; of_Z 75; of_Z 80];
          EDA := [of_Z 4; of_Z 5; of_Z 6] |}
  /\ 0 < df_len {| HR := [of_Z 60; of_Z 75; of_Z 80];
                   EDA := [of_Z 4; of_Z 5; of_Z 6] |}.
Proof.
  assert (Hload : load_data (C := Demo.collaborators)
            {| minutes := 1; thingspeak_url := Some "http://sensor/feeds";
               use_dummy_data := true |}
          = Ok {| HR := [of_Z 60; of_Z 75; of_Z 80];
                  EDA := [of_Z 4; of_Z 5; of_Z 6] |})
    by (vm_compute; reflexivity).
  split; [exact Hload|].
  exact (proj2 (loaded_frame_is_rectangular (C := Demo.collaborators) _ _ Hload)).
Defined.

(** Minus 180 minutes and no locator: no sample to draw from, status
    500. *)
Lemma negative_minutes_need_readings_witness :
  exists msg,
    load_data (C := Demo.collaborators)
      {| minutes := -180; thingspeak_url := None; use_dummy_data := true |}
    = Raise (ValueError msg)
    /\ analyze_stress (C := Demo.collaborators)
         {| minutes := -180; thingspeak_url := None; use_dummy_data := true |}
         []
       = (inl (Http500 (ValueError msg)), []).
Proof.
  exact (proj1 (negative_minutes_need_readings (C := Demo.collaborators)
                  {| minutes := -180; thingspeak_url := None;
                     use_dummy_data := true |} [] ltac:(cbn; lia)) I).
Defined.

(** The three readings of the concrete source, in order. *)
Lemma well_formed_feeds_are_loaded_witness :
  fetch_thingspeak_data (C := Demo.collaborators) "http://sensor/feeds"
  = Some {| HR := [of_Z 60; of_Z 75; of_Z 80];
            EDA := [of_Z 4; of_Z 5; of_Z 6] |}.
Proof.
  refine (proj1 (well_formed_feeds_are_loaded (C := Demo.collaborators)
                   "http://sensor/feeds"
                   [("feeds", JArr [Demo.reading 60 4; Demo.reading 75 5;
                                    Demo.reading 80 6])]
                   [Demo.reading 60 4; Demo.reading 75 5; Demo.reading 80 6]
                   [of_Z 60; of_Z 75; of_Z 80] [of_Z 4; of_Z 5; of_Z 6]
                   _ eq_refl eq_refl _ _));
    [vm_compute; reflexivity| |];
    repeat constructor; eexists; eexists; repeat split; reflexivity.
Defined.

(** The application's own endpoint as locator. *)
Lemma own_endpoint_is_never_fetched_witness :
  load_data (C := Demo.collaborators)
    {| minutes := 1;
       thingspeak_url := Some "http://localhost:8000/dummy-thingspeak";
       use_dummy_data := true |}
  = generate_dummy_data (C := Demo.collaborators) 1.
Proof.
  exact (proj2 (own_endpoint_is_never_fetched (C := Demo.collaborators)
                  {| minutes := 1;
                     thingspeak_url :=
                       Some "http://localhost:8000/dummy-thingspeak";
                     use_dummy_data := true |}
                  "http://" "/dummy-thingspeak" (or_intror eq_refl))).
Defined.

(** Two text readings, the second "n/a": nothing is fetched. *)
Lemma one_bad_reading_discards_the_fetch_witness :
  fetch_thingspeak_data (C := TextSource.collaborators) "http://sensor/text"
  = None.
Proof.
  refine (one_bad_reading_discards_the_fetch (C := TextSource.collaborators)
            "http://sensor/text" _ _ "field1" eq_refl eq_refl
            (or_introl eq_refl) _).
  apply Exists_cons_tl, Exists_cons_hd.
  exists [("field1", JStr "n/a"); ("field2", JStr "4.3")], (JStr "n/a").
  eexists. repeat split; reflexivity.
Defined.

(** The six-minute run on a series of 360 samples. *)
Lemma windows_are_full_witness :
  Forall (fun r => len (slice (start_of r) (stop_of r) (Demo.ramp 360)) = 60)
         (results (run_analysis (C := Demo.collaborators) 5 (Demo.ramp 360)
                     Demo.six_minutes)).
Proof.
  exact (windows_are_full (C := Demo.collaborators) 5 (Demo.ramp 360)
           Demo.six_minutes (Demo.ramp 360) eq_refl).
Defined.

(** Three minutes analysed of five requested: they end at sample 360. *)
Lemma summary_counts_are_consistent_witness :
  total_minutes (run_analysis (C := Demo.collaborators) 5 (Demo.ramp 360)
                   Demo.six_minutes) = 3
  /\ 180 + 60 * total_minutes (run_analysis (C := Demo.collaborators) 5
                                 (Demo.ramp 360) Demo.six_minutes)
     <= len (Demo.ramp 360).
Proof.
  assert (Htotal : total_minutes (run_analysis (C := Demo.collaborators) 5
                                    (Demo.ramp 360) Demo.six_minutes) = 3)
    by (vm_compute; reflexivity).
  split; [exact Htotal|].
  apply (proj2 (summary_counts_are_consistent (C := Demo.collaborators))).
  rewrite Htotal. reflexivity.
Defined.

Lemma demo_welch_ok_8 :
  welch_ok (C := Demo.collaborators) (Demo.ramp 8) (of_Z 1).
Proof.
  split; [reflexivity|]. split.
  - vm_compute. repeat split.
  - vm_compute. repeat constructor; discriminate.
Qed.

(** Eight samples, the band [0.1, 0.3]: the power is not negative. *)
Lemma band_power_is_nonnegative_witness :
  nonneg (calculate_power (C := Demo.collaborators) (Demo.ramp 8) (of_Z 1)
            (Fin (1 # 10)) (Fin (3 # 10))).
Proof.
  exact (proj2 (band_power_is_nonnegative (C := Demo.collaborators))
               (Demo.ramp 8) (of_Z 1) (Fin (1 # 10)) (Fin (3 # 10))
               demo_welch_ok_8).
Defined.

Lemma demo_baseline_welch_ok :
  Forall (fun segment => welch_ok (C := Demo.collaborators) segment fs)
         (baseline_segments Demo.six_minutes).
Proof.
  repeat constructor; try (vm_compute; reflexivity);
    try (vm_compute; repeat split);
    vm_compute; repeat constructor; discriminate.
Qed.

(** The sixth minute of the six-minute series has no low-frequency power:
    No Stress. *)
Lemma silent_window_is_no_stress_witness :
  stress_level
    (fst (analyze_segment (C := Demo.collaborators) Demo.six_minutes 2 300 360
            (seed 44))) = "No Stress".
Proof.
  refine (proj1 (proj2 (proj2
            (silent_window_is_no_stress (C := Demo.collaborators)
               Demo.six_minutes 2 300 360 (seed 44)
               demo_baseline_welch_ok _ _))));
    vm_compute; reflexivity.
Defined.

(** *** Fewer minutes, fewer bins *)

Section Prefix.

Context `{C : Collaborators}.

Lemma segment_loop_acc F L ms :
  forall g acc,
    segment_loop F L ms g acc = (acc ++ segment_loop F L ms g [])%list.
Proof.
  induction ms as [|m ms IH]; intros g acc; cbn [segment_loop].
  - now rewrite app_nil_r.
  - destruct (_ >? L); [now rewrite app_nil_r|].
    destruct (analyze_segment F m _ _ g) as [r g'].
    rewrite (IH g' (acc ++ [r])%list), (IH g' ([] ++ [r])%list).
    now rewrite <- app_assoc.
Qed.

(** The records of the first indices do not depend on the indices after
    them. *)
Lemma segment_loop_app F L ms1 ms2 :
  forall g,
    exists tail,
      segment_loop F L (ms1 ++ ms2) g []
      = (segment_loop F L ms1 g [] ++ tail)%list.
Proof.
  induction ms1 as [|m ms1 IH]; intros g; cbn [app segment_loop].
  - now exists (segment_loop F L ms2 g []).
  - destruct (_ >? L); [now exists []|].
    destruct (analyze_segment F m _ _ g) as [r g'].
    destruct (IH g') as (tail & Htail). exists tail.
    rewrite (segment_loop_acc F L (ms1 ++ ms2)), (segment_loop_acc F L ms1).
    now rewrite Htail, app_assoc.
Qed.

Lemma range_split a b :
  a <= b -> exists rest, range b = (range a ++ rest)%list.
Proof.
  intros Hab. unfold range.
  exists (map Z.of_nat (seq (Z.to_nat a) (Z.to_nat b - Z.to_nat a))).
  rewrite <- map_app, <- seq_app. do 2 f_equal. lia.
Qed.

(** X18: asking for fewer minutes returns a prefix of what asking for more
    returns: on the same signal and series the records of a request for
    [requested] minutes are the first [requested] records of any larger
    request, label, oxygen level and powers included. *)
Theorem fewer_minutes_give_a_prefix requested requested' ibi_signal F :
  requested <= requested' ->
  results (run_analysis requested ibi_signal F)
  = firstn (Z.to_nat requested)
           (results (run_analysis requested' ibi_signal F)).
Proof.
  intros Hle.
  pose proof (run_analysis_length requested ibi_signal F) as Hlen.
  pose proof (run_analysis_length requested' ibi_signal F) as Hlen'.
  rewrite !run_analysis_results in *.
  set (L := len ibi_signal) in *.
  assert (Hn : analysis_minutes requested L <= analysis_minutes requested' L)
    by (unfold analysis_minutes; lia).
  destruct (range_split _ _ Hn) as (rest & Hrest).
  destruct (segment_loop_app F L (range (analysis_minutes requested L)) rest
              (set_deterministic 42)) as (tail & Htail).
  rewrite <- Hrest in Htail. rewrite Htail in *.
  set (short := segment_loop F L (range (analysis_minutes requested L))
                  (set_deterministic 42) []) in *.
  unfold len in Hlen, Hlen'. rewrite length_app in Hlen'.
  destruct (Z_le_gt_dec requested (analysis_minutes requested L)) as [Hr|Hr].
  - assert (Hshort : List.length short = Z.to_nat requested)
      by (unfold analysis_minutes in *; lia).
    rewrite <- Hshort, firstn_app, firstn_all, Nat.sub_diag.
    cbn [firstn]. now rewrite app_nil_r.
  - assert (Htl : tail = []).
    { destruct tail; [reflexivity|]. cbn [List.length] in Hlen'.
      unfold analysis_minutes in *. lia. }
    subst tail. rewrite app_nil_r. symmetry. apply firstn_all2.
    unfold analysis_minutes in *. lia.
Qed.

Lemma select_length {A} (mask : list bool) (a : list A) :
  (List.length (select mask a) <= List.length (filter (fun b => b) mask))%nat.
Proof.
  revert a. induction mask as [|b mask IH]; intros a; [cbn; lia|].
  destruct b, a as [|x a]; cbn [select filter List.length];
    try specialize (IH a); lia.
Qed.

(** X19: a band that holds at most one bin has power 0: the trapezoid rule
    has no interval to integrate over, however large the density at that
    bin. *)
Theorem single_bin_has_no_power segment fs low_freq high_freq :
  (List.length (filter (in_band low_freq high_freq) (fst (welch segment fs))) <= 1)%nat ->
  calculate_power segment fs low_freq high_freq = of_Z 0.
Proof.
  unfold calculate_power. destruct (welch segment fs) as [f P]. cbn [fst].
  intros Hone.
  assert (Hmask : (List.length (filter (fun b => b)
                     (band_mask f low_freq high_freq)) <= 1)%nat).
  { unfold band_mask.
    replace (List.length (filter (fun b => b) (map (in_band low_freq high_freq) f)))
      with (List.length (filter (in_band low_freq high_freq) f));
      [exact Hone|].
    clear. induction f as [|x f IH]; [reflexivity|].
    cbn [map filter]. destruct (in_band low_freq high_freq x);
      cbn [List.length]; now rewrite IH. }
  pose proof (select_length (band_mask f low_freq high_freq) P) as HP.
  destruct (select (band_mask f low_freq high_freq) P) as [|y0 [|y1 ys]];
    try reflexivity.
  cbn [List.length] in HP. lia.
Qed.

End Prefix.

(** Two minutes requested are the first two records of five requested. *)
Lemma fewer_minutes_give_a_prefix_witness :
  results (run_analysis (C := Demo.collaborators) 2 (Demo.ramp 360)
             Demo.six_minutes)
  = firstn 2 (results (run_analysis (C := Demo.collaborators) 5
                         (Demo.ramp 360) Demo.six_minutes)).
Proof.
  exact (fewer_minutes_give_a_prefix (C := Demo.collaborators) 2 5
           (Demo.ramp 360) Demo.six_minutes ltac:(lia)).
Defined.

(** Eight samples, the band [0.1, 0.2] around the bin 1/8 alone. *)
Lemma single_bin_has_no_power_witness :
  filter (in_band (Fin (1 # 10)) (Fin (2 # 10)))
         (fst (welch (Collaborators := Demo.collaborators) (Demo.ramp 8)
                 (of_Z 1)))
  = [Fin (1 # 8)]
  /\ calculate_power (C := Demo.collaborators) (Demo.ramp 8) (of_Z 1)
       (Fin (1 # 10)) (Fin (2 # 10)) = of_Z 0.
Proof.
  split; [vm_compute; reflexivity|].
  apply (single_bin_has_no_power (C := Demo.collaborators)).
  vm_compute. lia.
Defined.
